(** * rabbitmq_exporter: the polling core of [main.go]

    A shallow embedding of the exporter's mapping functions
    ([getOverview], [getNumberOfMessages]), its decoders, the per-node
    poll cycle ([requestData], [runRequestLoop]) and the supervisor
    ([updateNodesStats]), followed by the properties of the specification
    that concern them.

    Go's panics are the program's error channel (the fetcher panics on a
    transport error, the poll cycle recovers), so the embedding threads a
    state through a small state-and-panic monad: a panic keeps the state
    reached so far, exactly as the Go runtime keeps the writes made before
    it. *)

From Stdlib Require Import ZArith Lia Ascii.
From Stdlib Require Import Floats.SpecFloat.
From stdpp Require Import base option list strings gmap.

Local Open Scope Z_scope.
Local Open Scope string_scope.

(** ** float64

    Go's [float64] is IEEE 754 binary64; the Standard Library's
    [spec_float] at precision 53 and maximal exponent 1024 is that format,
    with [SFadd] its round-to-nearest-even addition. *)

Definition float64 : Type := spec_float.

Definition f64_prec : Z := 53.
Definition f64_emax : Z := 1024.

(** [0.0], the zero value of [float64]. *)
Definition f64_zero : float64 := S754_zero false.

(** [x + y] on [float64]. *)
Definition f64_add (x y : float64) : float64 := SFadd f64_prec f64_emax x y.

(** The [float64] nearest to an integer, as the JSON decoder produces for
    an integer literal. *)
Definition f64_of_Z (z : Z) : float64 :=
  binary_normalize f64_prec f64_emax z 0 false.

(** ** Decoded JSON

    What [encoding/json] stores into an [interface{}]: [nil], [bool],
    [float64], [string], [[]interface{}] and [map[string]interface{}]. *)

#[local] Unset Elimination Schemes.
Inductive json : Type :=
  | JNull
  | JBool (b : bool)
  | JNum (f : float64)
  | JStr (s : string)
  | JArr (l : list json)
  | JObj (m : gmap string json).
#[local] Set Elimination Schemes.

(** A [map[string]interface{}]; the nil map reads like the empty one. *)
Abbreviation jobject := (gmap string json).

(** The type assertion [v.(float64)] in its comma-ok reading. *)
Definition as_float64 (v : option json) : option float64 :=
  match v with
  | Some (JNum f) => Some f
  | _ => None
  end.

(** The type assertion [v.(string)] in its comma-ok reading. *)
Definition as_string (v : option json) : option string :=
  match v with
  | Some (JStr s) => Some s
  | _ => None
  end.

(** The type assertion [v.(map[string]interface{})] in its comma-ok
    reading. *)
Definition as_object (v : option json) : option jobject :=
  match v with
  | Some (JObj m) => Some m
  | _ => None
  end.

(** ** Metrics

    The sixteen metric vectors declared at the top of [main.go], each with
    the single label [node]. *)

Inductive MetricKind : Type := Gauge | Counter.

Inductive Metric : Type :=
  | connectionsTotal
  | channelsTotal
  | queuesTotal
  | consumersTotal
  | exchangesTotal
  | messagesTotal
  | messagesCounter
  | messagesReadyCounter
  | messagesUnacknowledgedCounter
  | messageStatsPublishCounter
  | messageStatsAckCounter
  | messageStatsDeliverCounter
  | messageStatsConfirmCounter
  | messageStatsRedeliverCounter
  | messageStatsDeliverGetCounter
  | messageStatsDeliverNoAckCounter.

Definition namespace : string := "rabbitmq".

Definition metric_kind (m : Metric) : MetricKind :=
  match m with
  | connectionsTotal | channelsTotal | queuesTotal
  | consumersTotal | exchangesTotal | messagesTotal => Gauge
  | _ => Counter
  end.

Definition metric_subsystem (m : Metric) : string :=
  match m with
  | connectionsTotal | channelsTotal | queuesTotal
  | consumersTotal | exchangesTotal | messagesTotal => ""
  | messagesCounter | messagesReadyCounter
  | messagesUnacknowledgedCounter => "messages"
  | _ => "message_stats"
  end.

Definition metric_name (m : Metric) : string :=
  match m with
  | connectionsTotal => "connections_total"
  | channelsTotal => "channels_total"
  | queuesTotal => "queues_total"
  | consumersTotal => "consumers_total"
  | exchangesTotal => "exchanges_total"
  | messagesTotal => "messages_total"
  | messagesCounter => "messages"
  | messagesReadyCounter => "messages_ready"
  | messagesUnacknowledgedCounter => "messages_unacknowledged"
  | messageStatsPublishCounter => "messages_published"
  | messageStatsAckCounter => "messages_acked"
  | messageStatsDeliverCounter => "messages_delivered"
  | messageStatsConfirmCounter => "messages_confirmed"
  | messageStatsRedeliverCounter => "messages_redelivered"
  | messageStatsDeliverGetCounter => "messages_delivered_get"
  | messageStatsDeliverNoAckCounter => "messages_delivered_no_ack"
  end.

Definition metric_index (m : Metric) : nat :=
  match m with
  | connectionsTotal => 0
  | channelsTotal => 1
  | queuesTotal => 2
  | consumersTotal => 3
  | exchangesTotal => 4
  | messagesTotal => 5
  | messagesCounter => 6
  | messagesReadyCounter => 7
  | messagesUnacknowledgedCounter => 8
  | messageStatsPublishCounter => 9
  | messageStatsAckCounter => 10
  | messageStatsDeliverCounter => 11
  | messageStatsConfirmCounter => 12
  | messageStatsRedeliverCounter => 13
  | messageStatsDeliverGetCounter => 14
  | messageStatsDeliverNoAckCounter => 15
  end%nat.

Definition all_metrics : list Metric :=
  [ connectionsTotal; channelsTotal; queuesTotal; consumersTotal;
    exchangesTotal; messagesTotal; messagesCounter; messagesReadyCounter;
    messagesUnacknowledgedCounter; messageStatsPublishCounter;
    messageStatsAckCounter; messageStatsDeliverCounter;
    messageStatsConfirmCounter; messageStatsRedeliverCounter;
    messageStatsDeliverGetCounter; messageStatsDeliverNoAckCounter ].

#[global] Instance Metric_eq_dec : EqDecision Metric.
Proof. solve_decision. Defined.

#[global] Instance Metric_countable : Countable Metric.
Proof.
  refine (inj_countable' metric_index (fun n => default connectionsTotal (all_metrics !! n)) _).
  intros []; reflexivity.
Defined.

(** The metric names the specification documents for the exposition
    (§6). *)
Definition documented_names : list string :=
  [ "connections_total"; "channels_total"; "queues_total";
    "consumers_total"; "exchanges_total"; "messages_total"; "messages";
    "messages_ready"; "messages_unacknowledged"; "messages_published";
    "messages_acked"; "messages_delivered"; "messages_confirmed";
    "messages_redelivered"; "messages_delivered_get";
    "messages_delivered_no_ack" ].

(** ** Registry and program state

    The registry holds, per metric vector and label value, the last value
    stored.  The state also keeps what one goroutine did besides: what it
    logged and how long it slept. *)

Abbreviation Registry := (gmap (Metric * string) float64).

Inductive Event : Type :=
  | EvLogError
  | EvLogWarn
  | EvSleep (d : Z).

Record State : Type := mkState {
  registry : Registry;
  events : list Event;
}.

(** Durations are nanoseconds, as [time.Duration]. *)
Definition Second : Z := 1000000000.

(** ** Panics *)

Inductive Panic : Type :=
  | PanicError            (* panic(err) after a failed client.Do *)
  | PanicNilDereference   (* req.SetBasicAuth on the nil request *)
  | PanicTypeAssertion    (* a failed v.(T) *)
  | PanicIndexOutOfRange. (* response[0] on an empty slice *)

Inductive Outcome (A : Type) : Type :=
  | Returned (a : A)
  | Panicked (p : Panic).
Arguments Returned {A} a.
Arguments Panicked {A} p.

(** A computation runs from a state to a state and either returns or
    panics. *)
Definition M (A : Type) : Type := State → State * Outcome A.

Definition ret {A} (a : A) : M A := fun s => (s, Returned a).

Definition bind {A B} (m : M A) (k : A → M B) : M B :=
  fun s =>
    match m s with
    | (s', Returned a) => k a s'
    | (s', Panicked p) => (s', Panicked p)
    end.

Definition panic {A} (p : Panic) : M A := fun s => (s, Panicked p).

Notation "'let!' x ':=' m 'in' k" := (bind m (fun x => k))
  (at level 10, x name, m at level 100, k at level 200).
Notation "m >> k" := (bind m (fun _ => k))
  (at level 100, right associativity).

(** [log.Error], [log.Warn] and [time.Sleep]. *)
Definition emit (e : Event) : M unit :=
  fun s => (mkState (registry s) (events s ++ [e]), Returned tt).

Definition log_Error : M unit := emit EvLogError.
Definition log_Warn : M unit := emit EvLogWarn.
Definition time_Sleep (d : Z) : M unit := emit (EvSleep d).

(** [vec.WithLabelValues(node).Set(v)]: the stored value is replaced.  The
    client library the program is built against offers [Set] on gauges and
    on counters alike, and both store the argument. *)
Definition WithLabelValues_Set (m : Metric) (node : string) (v : float64) : M unit :=
  fun s => (mkState (<[(m, node) := v]> (registry s)) (events s), Returned tt).

(** A type assertion without comma-ok panics when it fails. *)
Definition assert {A} (o : option A) : M A :=
  match o with
  | Some a => ret a
  | None => panic PanicTypeAssertion
  end.

(** [defer func() { if r := recover(); r != nil { ... } }()]: a panic of
    the body is stopped, the handler runs, and the function returns
    normally; a body that returns is left alone. *)
Definition defer_recover (handler : M unit) (body : M unit) : M unit :=
  fun s =>
    match body s with
    | (s', Returned a) => (s', Returned a)
    | (s', Panicked _) => handler s'
    end.

(** ** The network and the JSON decoder

    One HTTP exchange, as far as the program can tell the cases apart:
    [http.NewRequest] failed (its error is dropped and the request is
    nil), [client.Do] failed, or a response arrived; the status code is
    never looked at.

    What a response body is to [encoding/json]: text that is not JSON
    ([None]); a JSON value all of whose numbers fit a [float64]; or a
    JSON value that holds a number literal outside the range of
    [float64], such as [1e400].  For such a number the decoder stores nil,
    goes on, and returns an error once everything else is stored:
    [stored] is the value with nil in the place of each such number. *)

Inductive Decoder : Type :=
  | Text (v : option json)
  | OutOfRange (stored : json).

#[warning="-uniform-inheritance"]
Coercion Text : option >-> Decoder.

Inductive Response : Type :=
  | BadRequest
  | TransportError
  | Body (d : Decoder).

(** The network at one moment: what a GET of a URL with the given user
    name and password is answered with. *)
Definition Network : Type := string → string → string → Response.

(** [d.Decode(&response)] for [response map[string]interface{}]: the
    decoded map and whether an error is returned.  A JSON [null] leaves
    the map nil without an error; any other non-object is a type error,
    and text that is not JSON a syntax error; both leave the map nil.  An
    object with a number out of range is stored and is an error all the
    same. *)
Definition Decode_obj (d : Decoder) : jobject * bool :=
  match d with
  | Text (Some (JObj m)) => (m, false)
  | Text (Some JNull) => (∅, false)
  | OutOfRange (JObj m) => (m, true)
  | _ => (∅, true)
  end.

(** One element of a [[]map[string]interface{}]: an element that is not
    an object stays the nil map and, unless it is [null], is a type
    error, after which decoding goes on. *)
Definition Decode_elem (v : json) : jobject * bool :=
  match v with
  | JObj m => (m, false)
  | JNull => (∅, false)
  | _ => (∅, true)
  end.

(** [d.Decode(&response)] for [response []map[string]interface{}]. *)
Definition Decode_objs (d : Decoder) : list jobject * bool :=
  match d with
  | Text (Some (JArr l)) =>
      ((fun v => fst (Decode_elem v)) <$> l,
       existsb (fun v => snd (Decode_elem v)) l)
  | Text (Some JNull) => ([], false)
  | OutOfRange (JArr l) => ((fun v => fst (Decode_elem v)) <$> l, true)
  | _ => ([], true)
  end.

(** ** Configuration *)

Record Node : Type := mkNode {
  Name : string;
  Url : string;
  Uname : string;
  Password : string;
  Interval : string;
}.

Record Config : Type := mkConfig {
  Nodes : option (list Node);   (* *[]Node: nil when the key is absent *)
  Port : string;
  cfg_Interval : string;        (* Config.Interval *)
}.

(** [m[k]] on a [map[string]float64]: the zero value when [k] is absent. *)
Definition index_float (m : gmap string float64) (k : string) : float64 :=
  default f64_zero (m !! k).

(** ** The program *)

Section Exporter.

(** [time.ParseDuration] belongs to Go's library; the program only
    distinguishes a parsed duration from an error. *)
Variable ParseDuration : string → option Z.

Definition sendApiRequest (net : Network)
    (hostname username password query : string) : M Decoder :=
  match net (hostname ++ query) username password with
  | BadRequest => panic PanicNilDereference
  | TransportError => log_Error >> panic PanicError
  | Body d => ret d
  end.

Definition decodeObj (d : Decoder) : M jobject :=
  let '(response, err) := Decode_obj d in
  (if err then log_Error else ret tt) >>
  ret response.

Definition decodeObjArray (d : Decoder) : M (list jobject) :=
  let '(response, err) := Decode_objs d in
  (if err then log_Error else ret tt) >>
  ret response.

(** [for k, v := range g { objectTotals[k] = v.(float64) }] *)
Definition range_assert (g : jobject) : M (gmap string float64) :=
  map_fold
    (fun k v acc =>
       let! totals := acc in
       let! f := assert (as_float64 (Some v)) in
       ret (<[k := f]> totals))
    (ret ∅) g.

(** [for k, v := range g { switch v.(type) { case float64: totals[k] =
    v.(float64) } }] *)
Definition range_switch (g : jobject) : gmap string float64 :=
  map_fold
    (fun k v totals =>
       match v with
       | JNum f => <[k := f]> totals
       | _ => totals
       end)
    ∅ g.

Definition getOverview (net : Network)
    (hostname username password : string) : M unit :=
  let! decoder := sendApiRequest net hostname username password "/api/overview" in
  let! response := decodeObj decoder in
  let! g1 := assert (as_object (response !! "object_totals")) in
  let! objectTotals := range_assert g1 in
  let! g2 := assert (as_object (response !! "queue_totals")) in
  let queueTotals := range_switch g2 in
  let! g3 := assert (as_object (response !! "message_stats")) in
  let messageStats := range_switch g3 in
  let nodename := default "" (as_string (response !! "node")) in
  WithLabelValues_Set channelsTotal nodename
    (index_float objectTotals "channels") >>
  WithLabelValues_Set connectionsTotal nodename
    (index_float objectTotals "connections") >>
  WithLabelValues_Set consumersTotal nodename
    (index_float objectTotals "consumers") >>
  WithLabelValues_Set queuesTotal nodename
    (index_float objectTotals "queues") >>
  WithLabelValues_Set exchangesTotal nodename
    (index_float objectTotals "exchanges") >>
  WithLabelValues_Set messagesCounter nodename
    (index_float queueTotals "messages") >>
  WithLabelValues_Set messagesReadyCounter nodename
    (index_float queueTotals "messages_ready") >>
  WithLabelValues_Set messagesUnacknowledgedCounter nodename
    (index_float queueTotals "messages_unacknowledged") >>
  WithLabelValues_Set messageStatsRedeliverCounter nodename
    (index_float messageStats "redeliver") >>
  WithLabelValues_Set messageStatsConfirmCounter nodename
    (index_float messageStats "confirm") >>
  WithLabelValues_Set messageStatsDeliverCounter nodename
    (index_float messageStats "deliver") >>
  WithLabelValues_Set messageStatsPublishCounter nodename
    (index_float messageStats "publish") >>
  WithLabelValues_Set messageStatsAckCounter nodename
    (index_float messageStats "ack") >>
  WithLabelValues_Set messageStatsDeliverGetCounter nodename
    (index_float messageStats "deliver_get") >>
  WithLabelValues_Set messageStatsDeliverNoAckCounter nodename
    (index_float messageStats "deliver_no_ack").

(** [response[0]] *)
Definition index0 (response : list jobject) : M jobject :=
  match response with
  | v :: _ => ret v
  | [] => panic PanicIndexOutOfRange
  end.

(** [for _, v := range response { total_messages +=
    v["messages"].(float64) }] *)
Fixpoint sum_messages (response : list jobject) (total_messages : float64)
    : M float64 :=
  match response with
  | [] => ret total_messages
  | v :: rest =>
      let! f := assert (as_float64 (v !! "messages")) in
      sum_messages rest (f64_add total_messages f)
  end.

Definition getNumberOfMessages (net : Network)
    (hostname username password : string) : M unit :=
  let! decoder := sendApiRequest net hostname username password "/api/queues" in
  let! response := decodeObjArray decoder in
  let! first := index0 response in
  let! nodename := assert (as_string (first !! "node")) in
  let! total_messages := sum_messages response f64_zero in
  WithLabelValues_Set messagesTotal nodename total_messages.

Definition requestData (net : Network) (node : Node) : M unit :=
  defer_recover (time_Sleep (10 * Second))
    (getOverview net (Url node) (Uname node) (Password node) >>
     getNumberOfMessages net (Url node) (Uname node) (Password node) >>
     let! dt := match ParseDuration (Interval node) with
                | Some dt => ret dt
                | None => log_Warn >> ret (30 * Second)
                end in
     time_Sleep dt).

(** [for { requestData(node) }], observed for [n] iterations; [net i]
    is the network during iteration [i]. *)
Fixpoint runRequestLoop (net : nat → Network) (node : Node) (n : nat)
    : M unit :=
  match n with
  | O => ret tt
  | S n' =>
      requestData (net O) node >>
      runRequestLoop (fun i => net (S i)) node n'
  end.

(** The node a loop is started with: [node.Interval = config.Interval]
    when [len(node.Interval) == 0]. *)
Definition resolve_interval (config : Config) (node : Node) : Node :=
  if (String.length (Interval node) =? 0)%nat
  then mkNode (Name node) (Url node) (Uname node) (Password node)
              (cfg_Interval config)
  else node.

(** [updateNodesStats]: the nodes handed to [go runRequestLoop(node)],
    in order; dereferencing a nil [config.Nodes] panics. *)
Definition updateNodesStats (config : Config) : Outcome (list Node) :=
  match Nodes config with
  | None => Panicked PanicNilDereference
  | Some nodes => Returned (resolve_interval config <$> nodes)
  end.

End Exporter.

(** ** Reading the two snapshots

    The same passes once more, as plain functions of the decoded
    snapshot: which points a pass stores, or how it panics.  The lemmas
    below show that [getOverview] and [getNumberOfMessages] do exactly
    this. *)

Inductive Group : Type := object_totals | queue_totals | message_stats.

Definition group_key (g : Group) : string :=
  match g with
  | object_totals => "object_totals"
  | queue_totals => "queue_totals"
  | message_stats => "message_stats"
  end.

(** The fifteen [Set] calls of [getOverview], in order: the vector
    written, the group read and the key looked up in it. *)
Definition overview_fields : list (Metric * Group * string) :=
  [ (channelsTotal, object_totals, "channels");
    (connectionsTotal, object_totals, "connections");
    (consumersTotal, object_totals, "consumers");
    (queuesTotal, object_totals, "queues");
    (exchangesTotal, object_totals, "exchanges");
    (messagesCounter, queue_totals, "messages");
    (messagesReadyCounter, queue_totals, "messages_ready");
    (messagesUnacknowledgedCounter, queue_totals, "messages_unacknowledged");
    (messageStatsRedeliverCounter, message_stats, "redeliver");
    (messageStatsConfirmCounter, message_stats, "confirm");
    (messageStatsDeliverCounter, message_stats, "deliver");
    (messageStatsPublishCounter, message_stats, "publish");
    (messageStatsAckCounter, message_stats, "ack");
    (messageStatsDeliverGetCounter, message_stats, "deliver_get");
    (messageStatsDeliverNoAckCounter, message_stats, "deliver_no_ack") ].

Definition group_of (response : jobject) (g : Group) : option jobject :=
  as_object (response !! group_key g).

(** The number under [k], or [0.0] when there is none. *)
Definition field (g : jobject) (k : string) : float64 :=
  default f64_zero (as_float64 (g !! k)).

Definition numeric (v : json) : Prop := is_Some (as_float64 (Some v)).

#[global] Instance numeric_dec (v : json) : Decision (numeric v).
Proof. unfold numeric. apply _. Defined.

Definition all_numeric (g : jobject) : Prop :=
  map_Forall (fun _ v => numeric v) g.

Definition nodename_of (response : jobject) : string :=
  default "" (as_string (response !! "node")).

(** A metric point: vector, label value, value. *)
Definition MetricPoint : Type := Metric * string * float64.

(** The (name, label) pair a point is stored under. *)
Definition point_key (pt : MetricPoint) : Metric * string := (pt.1.1, pt.1.2).

(** The three groups are objects and [object_totals] holds numbers only:
    no type assertion of the overview pass fails. *)
Definition well_shaped (response : jobject) : Prop :=
  ∃ g1 g2 g3,
    group_of response object_totals = Some g1 ∧
    group_of response queue_totals = Some g2 ∧
    group_of response message_stats = Some g3 ∧
    all_numeric g1.

(** A snapshot-shape error: a group is missing or is not an object, or
    [object_totals] holds a value that is not a number. *)
Definition shape_error (response : jobject) : Prop :=
  (∃ g, group_of response g = None) ∨
  (∃ g1, group_of response object_totals = Some g1 ∧ ¬ all_numeric g1).

(** Every target field is there and is a number. *)
Definition complete_overview (response : jobject) : Prop :=
  ∀ m g k, (m, g, k) ∈ overview_fields →
    ∃ grp f, group_of response g = Some grp ∧ grp !! k = Some (JNum f).

(** [objectTotals], [queueTotals] or [messageStats]. *)
Definition select (g1 g2 g3 : jobject) (g : Group) : jobject :=
  match g with
  | object_totals => g1
  | queue_totals => g2
  | message_stats => g3
  end.

(** What one overview pass stores, in order; [None] when a type assertion
    of the pass fails. *)
Definition overview_points (response : jobject) : option (list MetricPoint) :=
  match group_of response object_totals,
        group_of response queue_totals,
        group_of response message_stats with
  | Some g1, Some g2, Some g3 =>
      if decide (all_numeric g1)
      then Some ((fun '(m, g, k) =>
                    (m, nodename_of response, field (select g1 g2 g3 g) k))
                 <$> overview_fields)
      else None
  | _, _, _ => None
  end.

Definition has_messages (v : jobject) : Prop :=
  is_Some (as_float64 (v !! "messages")).

(** [0.0 + m1 + m2 + ...], added from the left as the loop does. *)
Definition total_messages_of (response : list jobject) : float64 :=
  foldl (fun total v => f64_add total (field v "messages")) f64_zero response.

(** What one queues pass stores, or the panic it ends in. *)
Definition queues_point (response : list jobject) : Panic + MetricPoint :=
  match response with
  | [] => inl PanicIndexOutOfRange
  | first :: _ =>
      match as_string (first !! "node") with
      | None => inl PanicTypeAssertion
      | Some nodename =>
          if decide (Forall has_messages response)
          then inr (messagesTotal, nodename, total_messages_of response)
          else inl PanicTypeAssertion
      end
  end.

(** [observe(name, label, value)] of the registry, and a list of
    observations made in order. *)
Definition observe (r : Registry) (pt : MetricPoint) : Registry :=
  <[(pt.1.1, pt.1.2) := pt.2]> r.

Definition observe_all (pts : list MetricPoint) (r : Registry) : Registry :=
  foldl observe r pts.

(** The state after [if err != nil { log.Error(err) }]. *)
Definition logged (err : bool) (s : State) : State :=
  if err then mkState (registry s) (events s ++ [EvLogError]) else s.

Definition empty_state : State := mkState ∅ [].

(** Running from [s] what was run from the empty state: the writes land
    on top of the registry of [s], the events after those of [s]. *)
Definition replay {A} (s : State) (run : State * Outcome A)
    : State * Outcome A :=
  (mkState (registry run.1 ∪ registry s) (events s ++ events run.1), run.2).

(** A computation that writes without reading: from any state it does
    what it does from the empty one. *)
Definition blind {A} (m : M A) : Prop := ∀ s, m s = replay s (m empty_state).

(** ** One poll cycle and its errors *)

Definition overview_url (node : Node) : string := Url node ++ "/api/overview".
Definition queues_url (node : Node) : string := Url node ++ "/api/queues".

(** The fetch and map part of [requestData]. *)
Definition fetch_and_map (net : Network) (node : Node) : M unit :=
  getOverview net (Url node) (Uname node) (Password node) >>
  getNumberOfMessages net (Url node) (Uname node) (Password node).

(** No response arrived. *)
Definition fetch_failed (r : Response) : Prop :=
  match r with
  | Body _ => False
  | _ => True
  end.

(** The queues pass cannot map the array: it is empty, its first element
    has no string [node], or an element has no numeric [messages]. *)
Definition queues_error (response : list jobject) : Prop :=
  response = [] ∨
  (∃ first rest, response = first :: rest ∧ as_string (first !! "node") = None) ∨
  ¬ Forall has_messages response.

(** An error of one poll cycle of [node] that stops its fetch and map: a
    fetch that fails, or a snapshot that cannot be mapped.  A snapshot that
    the decoder left nil is among the latter. *)
Inductive CycleError (net : Network) (node : Node) : Prop :=
  | overview_fetch_error :
      fetch_failed (net (overview_url node) (Uname node) (Password node)) →
      CycleError net node
  | overview_map_error d :
      net (overview_url node) (Uname node) (Password node) = Body d →
      shape_error (Decode_obj d).1 →
      CycleError net node
  | queues_fetch_error :
      fetch_failed (net (queues_url node) (Uname node) (Password node)) →
      CycleError net node
  | queues_map_error d :
      net (queues_url node) (Uname node) (Password node) = Body d →
      queues_error (Decode_objs d).1 →
      CycleError net node.

(** Whether [decodeObj], or [decodeObjArray], is returned an error by
    [d.Decode] on a response. *)
Definition decode_error_obj (r : Response) : bool :=
  match r with
  | Body d => (Decode_obj d).2
  | _ => false
  end.

Definition decode_error_objs (r : Response) : bool :=
  match r with
  | Body d => (Decode_objs d).2
  | _ => false
  end.

(** The decode errors of the two snapshots of a cycle, counted. *)
Definition decode_errors (net : Network) (node : Node) : nat :=
  (Nat.b2n (decode_error_obj
              (net (overview_url node) (Uname node) (Password node))) +
   Nat.b2n (decode_error_objs
              (net (queues_url node) (Uname node) (Password node))))%nat.

(** What a cycle appends after a successful fetch and map: the sleep of
    the parsed interval, or a warning and the 30 second default. *)
Definition interval_events (parsed : option Z) : list Event :=
  match parsed with
  | Some dt => [EvSleep dt]
  | None => [EvLogWarn; EvSleep (30 * Second)]
  end.

(** ** The loops side by side

    [updateNodesStats] starts one goroutine per node.  The goroutines
    share the registry and nothing else; each has its own history of logs
    and sleeps.  One step of the system is one poll cycle of one
    goroutine, picked in any order. *)

Record Goroutine : Type := mkGoroutine {
  gr_node : Node;
  gr_events : list Event;
}.

Record System : Type := mkSystem {
  sys_registry : Registry;
  sys_loops : list Goroutine;
}.

Section Scheduler.

Variable ParseDuration : string → option Z.

(** The system right after [updateNodesStats(&config)]. *)
Definition started (config : Config) : Outcome System :=
  match updateNodesStats config with
  | Returned nodes =>
      Returned (mkSystem ∅ ((fun node => mkGoroutine node []) <$> nodes))
  | Panicked p => Panicked p
  end.


End Scheduler.

(** ** Sample snapshots, networks and nodes *)

Definition num (z : Z) : json := JNum (f64_of_Z z).

Definition sample_object_totals : jobject :=
  list_to_map [ ("channels", num 1); ("connections", num 2);
                ("consumers", num 3); ("queues", num 4);
                ("exchanges", num 5) ].

Definition sample_queue_totals : jobject :=
  list_to_map [ ("messages", num 6); ("messages_ready", num 7);
                ("messages_unacknowledged", num 8) ].

Definition sample_message_stats : jobject :=
  list_to_map [ ("publish", num 9); ("ack", num 10); ("deliver", num 11);
                ("confirm", num 12); ("redeliver", num 13);
                ("deliver_get", num 14); ("deliver_no_ack", num 15) ].

(** An overview with the node name and all fifteen target fields. *)
Definition sample_overview : jobject :=
  list_to_map [ ("node", JStr "rabbit@a");
                ("object_totals", JObj sample_object_totals);
                ("queue_totals", JObj sample_queue_totals);
                ("message_stats", JObj sample_message_stats) ].

(** The same without [object_totals.channels]. *)
Definition sample_overview_no_channels : jobject :=
  <["object_totals" := JObj (delete "channels" sample_object_totals)]>
    sample_overview.

(** The same without [node]. *)
Definition sample_overview_no_node : jobject := delete "node" sample_overview.

(** The same with a string among the object totals. *)
Definition sample_overview_bad_totals : jobject :=
  <["object_totals" := JObj (<["queues" := JStr "four"]> sample_object_totals)]>
    sample_overview.

(** [[{"node":"rabbit@a","messages":3},{"node":"rabbit@a","messages":7}]] *)
Definition sample_queues : list jobject :=
  [ list_to_map [ ("node", JStr "rabbit@a"); ("messages", num 3) ];
    list_to_map [ ("node", JStr "rabbit@a"); ("messages", num 7) ] ].

(** A network that answers the two API paths of one host and fails every
    other request. *)
Definition serve (host : string) (overview queues : Response) : Network :=
  fun url _ _ =>
    if String.eqb url (host ++ "/api/overview") then overview
    else if String.eqb url (host ++ "/api/queues") then queues
    else TransportError.

(** The sample broker, up. *)
Definition sample_net : Network :=
  serve "http://a:15672"
        (Body (Some (JObj sample_overview)))
        (Body (Some (JArr (JObj <$> sample_queues)))).

Definition sample_node : Node :=
  mkNode "a" "http://a:15672" "guest" "guest" "30s".

(** A stand-in for [time.ParseDuration] to run the cycle with: it accepts
    a decimal number of seconds followed by [s], which is all the samples
    use. *)
Fixpoint parse_seconds_from (acc : Z) (seen : bool) (s : string) : option Z :=
  match s with
  | EmptyString => None
  | String c rest =>
      if Ascii.eqb c "s"%char then
        if seen then
          match rest with
          | EmptyString => Some (acc * Second)
          | _ => None
          end
        else None
      else
        let n := Z.of_nat (Ascii.nat_of_ascii c) - 48 in
        if ((0 <=? n) && (n <=? 9))%Z
        then parse_seconds_from (10 * acc + n) true rest
        else None
  end.

Definition parse_seconds (s : string) : option Z :=
  parse_seconds_from 0 false s.

(** The sample broker answering with each of the overviews above, its
    queues endpoint down. *)
Definition no_channels_net : Network :=
  serve "http://a:15672" (Body (Some (JObj sample_overview_no_channels)))
        TransportError.

(** A registry in which an earlier poll left [channels_total] at 5. *)
Definition prior_channels_5 : State :=
  mkState {[ (channelsTotal, "rabbit@a") := f64_of_Z 5 ]} [].

Definition bad_totals_net : Network :=
  serve "http://a:15672" (Body (Some (JObj sample_overview_bad_totals)))
        TransportError.

Definition no_node_net : Network :=
  serve "http://a:15672" (Body (Some (JObj sample_overview_no_node)))
        TransportError.

(** No broker answers. *)
Definition down_net : Network := fun _ _ _ => TransportError.

(** The sample broker with no queue declared. *)
Definition no_queues_net : Network :=
  serve "http://a:15672" (Body (Some (JObj sample_overview)))
        (Body (Some (JArr []))).

(** A configuration with a global interval that does not parse, one node
    with an interval of its own and one without. *)
Definition sample_config : Config :=
  mkConfig (Some [ sample_node;
                   mkNode "b" "http://a:15672" "guest" "guest" "" ])
           "9100" "soon".


(** ** Registration and exposition

    [init] hands vectors to [prometheus.MustRegister]; [/metrics] is
    served by [prometheus.Handler()], which gathers the registered
    collectors and nothing else. *)

(** The arguments of the [MustRegister] calls of [init], in order. *)
Definition registered : list Metric :=
  [ channelsTotal; connectionsTotal; queuesTotal; exchangesTotal;
    consumersTotal; messagesTotal; messagesCounter; messagesReadyCounter;
    messageStatsAckCounter; messageStatsDeliverCounter;
    messageStatsRedeliverCounter; messageStatsConfirmCounter;
    messageStatsPublishCounter; messageStatsDeliverNoAckCounter;
    messageStatsDeliverGetCounter ].

(** What a scrape of [/metrics] sees of the stored values. *)
Definition gather (r : Registry) : Registry :=
  filter (fun kv => kv.1.1 ∈ registered) r.

(** ** Start-up

    [main] loads the configuration before anything else.  The state of
    that phase is the [Config] that [main] passes by pointer, and what was
    logged and slept. *)

Definition defaultConfigPath : string := "config.json".

Module Startup.

Record State : Type := mkState {
  config : Config;
  events : list Event;
}.

Definition M (A : Type) : Type := State → State * Outcome A.

Definition ret {A} (a : A) : M A := fun s => (s, Returned a).

Definition bind {A B} (m : M A) (k : A → M B) : M B :=
  fun s =>
    match m s with
    | (s', Returned a) => k a s'
    | (s', Panicked p) => (s', Panicked p)
    end.

Definition panic {A} (p : Panic) : M A := fun s => (s, Panicked p).

Definition emit (e : Event) : M unit :=
  fun s => (mkState (config s) (events s ++ [e]), Returned tt).

Definition log_Error : M unit := emit EvLogError.
Definition time_Sleep (d : Z) : M unit := emit (EvSleep d).

(** [defer func() { if r := recover(); r != nil { ... } }()] in a
    function with an unnamed result: after a panic the handler runs and
    the function returns the zero value of its result type. *)
Definition defer_recover {A} (zero : A) (handler : M unit) (body : M A)
    : M A :=
  fun s =>
    match body s with
    | (s', Returned a) => (s', Returned a)
    | (s', Panicked _) => bind handler (fun _ => ret zero) s'
    end.

(** [ioutil.ReadFile(path)]: an error or the file's content. *)
Inductive ReadResult : Type :=
  | ReadError
  | Content (file : string).

Definition FileSystem : Type := string → ReadResult.

Section Load.

(** [json.Unmarshal(file, c)] belongs to Go's library: given the content
    and the [Config] found behind [c], the [Config] left there and
    whether an error is returned. *)
Variable Unmarshal : string → Config → Config * bool.

(** [err = json.Unmarshal(file, c)] *)
Definition json_Unmarshal (file : string) : M bool :=
  fun s =>
    let '(c, err) := Unmarshal file (config s) in
    (mkState c (events s), Returned err).

Definition loadConfig (fs : FileSystem) (path : string) : M bool :=
  defer_recover false (time_Sleep (10 * Second))
    (bind (match fs path with
           | ReadError => bind log_Error (fun _ => panic PanicError)
           | Content file => ret file
           end)
       (fun file =>
     bind (json_Unmarshal file) (fun err =>
     bind (if err then bind log_Error (fun _ => panic PanicError)
           else ret tt) (fun _ =>
     ret true)))).

(** [for { is_ok := loadConfig(path, c); if is_ok == true { break } }],
    watched for at most [n] iterations; [fs i] is the file system during
    iteration [i].  The result tells whether the loop has been left. *)
Fixpoint runLoadConfigLoop (fs : nat → FileSystem) (path : string) (n : nat)
    : M bool :=
  match n with
  | O => ret false
  | S n' =>
      bind (loadConfig (fs O) path) (fun is_ok =>
      if is_ok then ret true
      else runLoadConfigLoop (fun i => fs (S i)) path n')
  end.

(** One attempt fails: the file cannot be read, or its content is an
    error to [json.Unmarshal] whatever the [Config] holds. *)
Definition load_fails (r : ReadResult) : Prop :=
  match r with
  | ReadError => True
  | Content file => ∀ c, (Unmarshal file c).2 = true
  end.

(** What a failed attempt adds to the history. *)
Definition cooldown : list Event := [EvLogError; EvSleep (10 * Second)].

(** [configPath] of [main]: the first argument after the program name
    when there is one. *)
Definition configPath (args : list string) : string :=
  match args with
  | _ :: path :: _ => path
  | _ => defaultConfigPath
  end.

(** [main] up to the start of the loops: the configuration is loaded,
    then [updateNodesStats] starts a loop per node.  [main] has no
    [recover]: a panic here ends the process.  [None] means that the
    configuration loop is still running after [n] iterations. *)
Definition main_start (fs : nat → FileSystem) (args : list string) (n : nat)
    : M (option System) :=
  bind (runLoadConfigLoop fs (configPath args) n) (fun left =>
  if left then
    fun s =>
      match started (config s) with
      | Returned sys => (s, Returned (Some sys))
      | Panicked p => (s, Panicked p)
      end
  else ret None).

End Load.

End Startup.

(** A stand-in for [json.Unmarshal] into a [Config]: the content ["ok"]
    yields a configuration with the two sample nodes, the content
    ["empty"] parses and sets nothing, anything else is an error that
    leaves the [Config] alone. *)
Definition sample_Unmarshal (file : string) (c : Config) : Config * bool :=
  if String.eqb file "ok" then (sample_config, false)
  else if String.eqb file "empty" then (c, false)
  else (c, true).

(** A file system whose configuration file is unreadable at first, then
    garbled, then good. *)
Definition sample_files (i : nat) : Startup.FileSystem :=
  fun _ =>
    match i with
    | O => Startup.ReadError
    | S O => Startup.Content "{"
    | _ => Startup.Content "ok"
    end.

Definition zero_Config : Config := mkConfig None "" "".

(** A second broker, whose overview and queues report [rabbit@b]. *)
Definition sample_net_b : Network :=
  serve "http://b:15672"
        (Body (Some (JObj (<["node" := JStr "rabbit@b"]> sample_overview))))
        (Body (Some (JArr [ JObj (list_to_map [ ("node", JStr "rabbit@b");
                                                ("messages", num 4) ]) ]))).

Definition sample_node_b : Node :=
  mkNode "b" "http://b:15672" "guest" "guest" "30s".

(** The sample overview as the decoder stores it when the body had
    [1e400] under [queue_totals.messages_details]. *)
Definition out_of_range_overview : Decoder :=
  OutOfRange
    (JObj (<["queue_totals" :=
               JObj (<["messages_details" := JNull]> sample_queue_totals)]>
             sample_overview)).

(** The sample broker answering with it. *)
Definition out_of_range_net : Network :=
  serve "http://a:15672" (Body out_of_range_overview)
        (Body (Some (JArr (JObj <$> sample_queues)))).




(** The sleeps among the events of a goroutine. *)
Definition is_sleep (e : Event) : bool :=
  match e with
  | EvSleep _ => true
  | _ => false
  end.

Definition sleeps (evs : list Event) : nat := length (filter is_sleep evs).

(** * Properties *)

(** ** The monad *)

Lemma bind_returned {A B} (m : M A) (k : A → M B) s s' a :
  m s = (s', Returned a) → bind m k s = k a s'.
Proof. intros H. unfold bind. by rewrite H. Qed.

Lemma bind_panicked {A B} (m : M A) (k : A → M B) s s' p :
  m s = (s', Panicked p) → bind m k s = (s', Panicked p).
Proof. intros H. unfold bind. by rewrite H. Qed.

(** ** Writing without reading

    No function of the program reads the registry or its own history, so
    each is [blind]; the proof goes through the program's constructs one
    by one. *)

Lemma blind_ret {A} (a : A) : blind (ret a).
Proof.
  intros [r ev]. unfold replay, ret. simpl.
  by rewrite (left_id_L ∅ (∪)), app_nil_r.
Qed.

Lemma blind_panic {A} (p : Panic) : blind (@panic A p).
Proof.
  intros [r ev]. unfold replay, panic. simpl.
  by rewrite (left_id_L ∅ (∪)), app_nil_r.
Qed.

Lemma blind_emit (e : Event) : blind (emit e).
Proof.
  intros [r ev]. unfold replay, emit. simpl.
  by rewrite (left_id_L ∅ (∪)).
Qed.

Lemma blind_Set (m : Metric) (node : string) (v : float64) : blind (WithLabelValues_Set m node v).
Proof.
  intros [r ev]. unfold replay, WithLabelValues_Set. simpl.
  by rewrite app_nil_r, <- insert_union_l, (left_id_L ∅ (∪)).
Qed.

Lemma blind_bind {A B} (m : M A) (k : A → M B) :
  blind m → (∀ a, blind (k a)) → blind (bind m k).
Proof.
  intros Hm Hk s. unfold bind at 1. rewrite (Hm s).
  unfold bind. destruct (m empty_state) as [s0 [a|p]]; simpl.
  - rewrite (Hk a _), (Hk a s0). unfold replay. simpl.
    by rewrite (assoc_L (∪)), (assoc_L (++)).
  - reflexivity.
Qed.

Lemma blind_defer_recover (handler body : M unit) :
  blind handler → blind body → blind (defer_recover handler body).
Proof.
  intros Hh Hb s. unfold defer_recover at 1. rewrite (Hb s).
  unfold defer_recover. destruct (body empty_state) as [s0 [a|p]]; simpl.
  - reflexivity.
  - rewrite (Hh _), (Hh s0). unfold replay. simpl.
    by rewrite (assoc_L (∪)), (assoc_L (++)).
Qed.

Lemma blind_assert {A} (o : option A) : blind (assert o).
Proof. destruct o; [apply blind_ret|apply blind_panic]. Qed.

Lemma blind_range_assert (g : jobject) : blind (range_assert g).
Proof.
  unfold range_assert.
  apply (map_fold_weak_ind (fun (r : M (gmap string float64)) (_ : jobject) => blind r)).
  - apply blind_ret.
  - intros i x m r _ IH. apply blind_bind; [done|]. intros t.
    apply blind_bind; [apply blind_assert|]. intros f. apply blind_ret.
Qed.

Lemma blind_sum_messages (response : list jobject) (total : float64) :
  blind (sum_messages response total).
Proof.
  revert total. induction response as [|v rest IH]; intros total; simpl.
  - apply blind_ret.
  - apply blind_bind; [apply blind_assert|]. intros f. apply IH.
Qed.

Create HintDb blind.
#[local] Hint Resolve blind_ret blind_panic blind_emit blind_Set blind_assert
  blind_range_assert blind_sum_messages : blind.

Ltac blind_step :=
  lazymatch goal with
  | |- blind (bind _ _) => apply blind_bind; [|intros ?]
  | |- blind (defer_recover _ _) => apply blind_defer_recover
  | |- blind (match ?x with _ => _ end) => destruct x
  | |- blind (let '(_, _) := ?x in _) => destruct x
  | |- _ => first [ solve [auto with blind] | progress cbv zeta ]
  end.

Lemma blind_sendApiRequest net h u p q : blind (sendApiRequest net h u p q).
Proof. unfold sendApiRequest, log_Error. repeat blind_step. Qed.

Lemma blind_decodeObj d : blind (decodeObj d).
Proof. unfold decodeObj, log_Error. repeat blind_step. Qed.

Lemma blind_decodeObjArray d : blind (decodeObjArray d).
Proof. unfold decodeObjArray, log_Error. repeat blind_step. Qed.

#[local] Hint Resolve blind_sendApiRequest blind_decodeObj blind_decodeObjArray : blind.

Lemma blind_getOverview net h u p : blind (getOverview net h u p).
Proof. unfold getOverview. repeat blind_step. Qed.

Lemma blind_getNumberOfMessages net h u p : blind (getNumberOfMessages net h u p).
Proof. unfold getNumberOfMessages, index0. repeat blind_step. Qed.

#[local] Hint Resolve blind_getOverview blind_getNumberOfMessages : blind.

Lemma blind_requestData pd net node : blind (requestData pd net node).
Proof. unfold requestData, time_Sleep, log_Warn. repeat blind_step. Qed.

(** ** The two passes as functions of the snapshot *)

Lemma range_switch_lookup (g : jobject) (k : string) :
  range_switch g !! k = as_float64 (g !! k).
Proof.
  unfold range_switch.
  apply (map_fold_weak_ind (fun (t : gmap string float64) (m : jobject) => t !! k = as_float64 (m !! k))).
  - by rewrite !lookup_empty.
  - intros i x m r Hi IH.
    destruct (decide (i = k)) as [->|Hne].
    + rewrite lookup_insert_eq. rewrite Hi in IH. simpl in IH.
      destruct x; simpl; rewrite ?lookup_insert_eq; auto.
    + rewrite lookup_insert_ne by done.
      destruct x; simpl; rewrite ?lookup_insert_ne by done; auto.
Qed.

Lemma index_float_range_switch (g : jobject) (k : string) :
  index_float (range_switch g) k = field g k.
Proof. unfold index_float, field. by rewrite range_switch_lookup. Qed.

Lemma range_assert_run (g : jobject) (s : State) :
  (all_numeric g ∧
     ∃ t, range_assert g s = (s, Returned t) ∧ ∀ k, index_float t k = field g k)
  ∨ (¬ all_numeric g ∧ range_assert g s = (s, Panicked PanicTypeAssertion)).
Proof.
  unfold range_assert, all_numeric.
  apply (map_fold_weak_ind (fun (r : M (gmap string float64)) (m : jobject) =>
    (map_Forall (fun _ v => numeric v) m ∧
       ∃ t, r s = (s, Returned t) ∧ ∀ k, index_float t k = field m k)
    ∨ (¬ map_Forall (fun _ v => numeric v) m ∧ r s = (s, Panicked PanicTypeAssertion)))).
  - left. split; [apply map_Forall_empty|]. exists ∅. split; [done|].
    intros k. unfold index_float, field. by rewrite !lookup_empty.
  - intros i x m r Hi [[Hall (t & Hr & Ht)]|[Hnot Hr]].
    + destruct (decide (numeric x)) as [Hx|Hx].
      * left. split; [by apply map_Forall_insert_2|].
        destruct x; try (by destruct Hx as [? Hx]; discriminate Hx).
        exists (<[i:=f]> t). split.
        { unfold bind. rewrite Hr. reflexivity. }
        intros k. unfold index_float, field.
        destruct (decide (i = k)) as [->|Hne].
        -- by rewrite !lookup_insert_eq.
        -- rewrite !lookup_insert_ne by done. apply Ht.
      * right. split.
        { intros Hall'. apply Hx. by apply (map_Forall_insert_1_1 _ m i x). }
        unfold bind. rewrite Hr.
        destruct x; try reflexivity. destruct Hx. by eexists.
    + right. split.
      { intros Hall'. apply Hnot. by apply (map_Forall_insert_1_2 _ m i x). }
      unfold bind. by rewrite Hr.
Qed.

Lemma decodeObj_run (d : Decoder) (s : State) :
  decodeObj d s = (logged (Decode_obj d).2 s, Returned (Decode_obj d).1).
Proof.
  unfold decodeObj, logged. destruct (Decode_obj d) as [response []], s; reflexivity.
Qed.

Lemma getOverview_body (net : Network) (h u p : string) (d : Decoder) (s : State) :
  net (h ++ "/api/overview") u p = Body d →
  getOverview net h u p s =
    let s1 := logged (Decode_obj d).2 s in
    match overview_points (Decode_obj d).1 with
    | Some pts =>
        (mkState (observe_all pts (registry s1)) (events s1), Returned tt)
    | None => (s1, Panicked PanicTypeAssertion)
    end.
Proof.
  intros Hnet. unfold getOverview, sendApiRequest. rewrite Hnet.
  rewrite (bind_returned _ _ s s d) by reflexivity.
  rewrite (bind_returned _ _ _ _ _ (decodeObj_run d s)).
  generalize (logged (Decode_obj d).2 s) as s1. 
  generalize ((Decode_obj d).1) as response. intros response s1. cbv zeta.
  unfold overview_points, group_of. simpl group_key.
  destruct (as_object (response !! "object_totals")) as [g1|]; [|reflexivity].
  rewrite (bind_returned _ _ s1 s1 g1) by reflexivity.
  destruct (range_assert_run g1 s1) as [[Hall (t & Hr & Ht)]|[Hnot Hr]].
  2: { rewrite (bind_panicked _ _ _ _ _ Hr).
       destruct (as_object (response !! "queue_totals")),
         (as_object (response !! "message_stats")); try reflexivity.
       by rewrite decide_False. }
  rewrite (bind_returned _ _ _ _ _ Hr).
  destruct (as_object (response !! "queue_totals")) as [g2|]; [|reflexivity].
  destruct (as_object (response !! "message_stats")) as [g3|]; [|reflexivity].
  rewrite decide_True by done.
  rewrite (bind_returned _ _ s1 s1 g2) by reflexivity.
  rewrite (bind_returned _ _ s1 s1 g3) by reflexivity.
  cbv beta zeta. rewrite !Ht, !index_float_range_switch. reflexivity.
Qed.

Lemma getOverview_fetch_failed (net : Network) (h u p : string) (s : State) :
  fetch_failed (net (h ++ "/api/overview") u p) →
  ∃ err pn, getOverview net h u p s = (logged err s, Panicked pn).
Proof.
  intros Hf. unfold getOverview, sendApiRequest.
  destruct (net (h ++ "/api/overview") u p); [| |done].
  - by exists false, PanicNilDereference.
  - exists true, PanicError. by destruct s.
Qed.

Lemma sum_messages_run (response : list jobject) (total : float64) (s : State) :
  sum_messages response total s =
    (s, if decide (Forall has_messages response)
        then Returned (foldl (fun total v => f64_add total (field v "messages"))
                             total response)
        else Panicked PanicTypeAssertion).
Proof.
  revert total. induction response as [|v rest IH]; intros total.
  - unfold sum_messages, ret.
    destruct (decide (Forall has_messages [])) as [|Hn]; [done|].
    destruct Hn. constructor.
  - simpl sum_messages. unfold field at 1.
    destruct (as_float64 (v !! "messages")) as [f|] eqn:Hv.
    + rewrite (bind_returned _ _ s s f) by reflexivity. rewrite IH.
      destruct (decide (Forall has_messages rest)) as [Hr|Hr].
      * rewrite decide_True; [|constructor; [by eexists|done]].
        simpl. unfold field. by rewrite Hv.
      * rewrite decide_False; [done|]. by inversion 1.
    + rewrite (bind_panicked _ _ s s PanicTypeAssertion) by reflexivity.
      rewrite decide_False; [done|]. inversion 1 as [|?? [f Hf]]; subst.
      unfold has_messages in *. congruence.
Qed.

Lemma decodeObjArray_run (d : Decoder) (s : State) :
  decodeObjArray d s = (logged (Decode_objs d).2 s, Returned (Decode_objs d).1).
Proof.
  unfold decodeObjArray, logged.
  destruct (Decode_objs d) as [response []], s; reflexivity.
Qed.

Lemma getNumberOfMessages_body (net : Network) (h u p : string) (d : Decoder)
    (s : State) :
  net (h ++ "/api/queues") u p = Body d →
  getNumberOfMessages net h u p s =
    let s1 := logged (Decode_objs d).2 s in
    match queues_point (Decode_objs d).1 with
    | inr pt => (mkState (observe (registry s1) pt) (events s1), Returned tt)
    | inl pn => (s1, Panicked pn)
    end.
Proof.
  intros Hnet. unfold getNumberOfMessages, sendApiRequest. rewrite Hnet.
  rewrite (bind_returned _ _ s s d) by reflexivity.
  rewrite (bind_returned _ _ _ _ _ (decodeObjArray_run d s)).
  generalize (logged (Decode_objs d).2 s) as s1.
  generalize ((Decode_objs d).1) as response. intros response s1. cbv zeta.
  unfold queues_point. destruct response as [|first rest]; [reflexivity|].
  rewrite (bind_returned _ _ s1 s1 first) by reflexivity.
  destruct (as_string (first !! "node")) as [nodename|]; [|reflexivity].
  rewrite (bind_returned _ _ s1 s1 nodename) by reflexivity.
  unfold bind at 1. rewrite sum_messages_run.
  destruct (decide (Forall has_messages (first :: rest))); reflexivity.
Qed.

Lemma getNumberOfMessages_fetch_failed (net : Network) (h u p : string)
    (s : State) :
  fetch_failed (net (h ++ "/api/queues") u p) →
  ∃ err pn, getNumberOfMessages net h u p s = (logged err s, Panicked pn).
Proof.
  intros Hf. unfold getNumberOfMessages, sendApiRequest.
  destruct (net (h ++ "/api/queues") u p); [| |done].
  - by exists false, PanicNilDereference.
  - exists true, PanicError. by destruct s.
Qed.

(** *** Observations *)

Lemma observe_all_lookup_other (pts : list MetricPoint) (r : Registry)
    (key : Metric * string) :
  key ∉ point_key <$> pts → observe_all pts r !! key = r !! key.
Proof.
  revert r. induction pts as [|pt pts IH]; intros r Hk; [done|].
  rewrite fmap_cons, not_elem_of_cons in Hk. destruct Hk as [Hne Hk].
  simpl. rewrite (IH _ Hk). unfold observe.
  by rewrite lookup_insert_ne.
Qed.

Lemma observe_all_lookup (pts : list MetricPoint) (r : Registry)
    (m : Metric) (node : string) (v : float64) :
  NoDup (point_key <$> pts) → (m, node, v) ∈ pts →
  observe_all pts r !! (m, node) = Some v.
Proof.
  revert r. induction pts as [|pt pts IH]; intros r Hnd Hin.
  - by apply elem_of_nil in Hin.
  - rewrite fmap_cons in Hnd. apply NoDup_cons in Hnd as [Hpt Hnd].
    apply elem_of_cons in Hin as [<-|Hin].
    + simpl. rewrite observe_all_lookup_other by done.
      unfold observe. simpl. by rewrite lookup_insert_eq.
    + simpl. by apply IH.
Qed.

Lemma observe_all_dom (pts : list MetricPoint) (r : Registry) :
  dom (observe_all pts r) = list_to_set (point_key <$> pts) ∪ dom r.
Proof.
  revert r. induction pts as [|pt pts IH]; intros r; simpl.
  - by rewrite (left_id_L ∅ (∪)).
  - rewrite IH. unfold observe at 1.
    rewrite dom_insert_L, (comm_L (∪) {[_]} (list_to_set _)).
    by rewrite (assoc_L (∪)).
Qed.

Lemma observe_all_size (pts : list MetricPoint) :
  NoDup (point_key <$> pts) →
  size (observe_all pts ∅) = length pts.
Proof.
  intros Hnd. rewrite <- size_dom, observe_all_dom, dom_empty_L, (right_id_L ∅ (∪)).
  rewrite size_list_to_set by done. by rewrite length_fmap.
Qed.

(** *** The points of an overview pass *)

Lemma NoDup_overview_metrics : NoDup (overview_fields.*1.*1).
Proof. by apply (bool_decide_unpack _); vm_compute. Qed.

Lemma overview_points_Some (response : jobject) (g1 g2 g3 : jobject) :
  group_of response object_totals = Some g1 →
  group_of response queue_totals = Some g2 →
  group_of response message_stats = Some g3 →
  all_numeric g1 →
  overview_points response =
    Some ((fun '(m, g, k) =>
             (m, nodename_of response, field (select g1 g2 g3 g) k))
          <$> overview_fields).
Proof.
  intros H1 H2 H3 Hn. unfold overview_points.
  rewrite H1, H2, H3. by rewrite decide_True.
Qed.

Lemma overview_points_well_shaped (response : jobject) :
  well_shaped response →
  ∃ pts, overview_points response = Some pts ∧
    length pts = 15%nat ∧
    point_key <$> pts = (fun m => (m, nodename_of response)) <$> overview_fields.*1.*1 ∧
    ∀ m g k grp, (m, g, k) ∈ overview_fields →
      group_of response g = Some grp →
      (m, nodename_of response, field grp k) ∈ pts.
Proof.
  intros (g1 & g2 & g3 & H1 & H2 & H3 & Hn).
  eexists. split; [by apply overview_points_Some|].
  split; [reflexivity|]. split; [reflexivity|].
  intros m g k grp Hin Hg.
  apply (list_elem_of_fmap_2' _ _ (m, g, k)); [done|].
  replace (select g1 g2 g3 g) with grp; [done|].
  destruct g; simpl; congruence.
Qed.

Lemma overview_points_NoDup (response : jobject) (pts : list MetricPoint) :
  overview_points response = Some pts → NoDup (point_key <$> pts).
Proof.
  unfold overview_points.
  destruct (group_of response object_totals) as [g1|]; [|done].
  destruct (group_of response queue_totals) as [g2|]; [|done].
  destruct (group_of response message_stats) as [g3|]; [|done].
  destruct (decide (all_numeric g1)); [|done].
  intros [= <-].
  change (NoDup ((fun m => (m, nodename_of response)) <$> overview_fields.*1.*1)).
  apply NoDup_fmap_2; [|apply NoDup_overview_metrics].
  by intros m1 m2 [= ->].
Qed.

Lemma overview_points_shape_error (response : jobject) :
  shape_error response → overview_points response = None.
Proof.
  unfold overview_points.
  intros [[g Hg]|(g1 & H1 & Hn)].
  - destruct g; rewrite Hg; [done| |].
    + by destruct (group_of response object_totals).
    + by destruct (group_of response object_totals), (group_of response queue_totals).
  - rewrite H1.
    destruct (group_of response queue_totals); [|done].
    destruct (group_of response message_stats); [|done].
    by rewrite decide_False.
Qed.

Lemma well_shaped_or_error (response : jobject) :
  well_shaped response ∨ shape_error response.
Proof.
  destruct (group_of response object_totals) as [g1|] eqn:H1;
    [|right; left; by exists object_totals].
  destruct (group_of response queue_totals) as [g2|] eqn:H2;
    [|right; left; by exists queue_totals].
  destruct (group_of response message_stats) as [g3|] eqn:H3;
    [|right; left; by exists message_stats].
  destruct (decide (all_numeric g1)) as [Hn|Hn].
  - left. by exists g1, g2, g3.
  - right. right. by exists g1.
Qed.

Lemma overview_names_documented :
  Forall (fun f : Metric * Group * string => metric_name f.1.1 ∈ documented_names)
         overview_fields.
Proof. by apply (bool_decide_unpack _); vm_compute. Qed.

(** A well-shaped overview is mapped without a panic, and every target
    holds its field's number, or zero, afterwards. *)
Lemma getOverview_well_shaped (net : Network) (h u p : string)
    (response : jobject) (s : State) :
  net (h ++ "/api/overview") u p = Body (Some (JObj response)) →
  well_shaped response →
  ∃ pts : list MetricPoint,
    getOverview net h u p s =
      (mkState (observe_all pts (registry s)) (events s), Returned tt) ∧
    length pts = 15%nat ∧
    NoDup (point_key <$> pts) ∧
    point_key <$> pts
      = (fun m => (m, nodename_of response)) <$> overview_fields.*1.*1 ∧
    ∀ m g k grp, (m, g, k) ∈ overview_fields →
      group_of response g = Some grp →
      (m, nodename_of response, field grp k) ∈ pts.
Proof.
  intros Hnet Hws.
  destruct (overview_points_well_shaped response Hws)
    as (pts & Hpts & Hlen & Hkeys & Hin).
  exists pts. rewrite (getOverview_body net h u p _ s Hnet). simpl.
  rewrite Hpts. repeat split; try done.
  by apply (overview_points_NoDup response).
Qed.

Lemma sample_overview_well_shaped : well_shaped sample_overview.
Proof.
  exists sample_object_totals, sample_queue_totals, sample_message_stats.
  repeat split; try reflexivity.
  by apply (bool_decide_unpack _); vm_compute.
Qed.

Lemma sample_overview_complete : complete_overview sample_overview.
Proof.
  intros m g k Hin.
  repeat (apply elem_of_cons in Hin as [[= -> -> ->]|Hin];
          [eexists _, _; split; vm_compute; reflexivity|]).
  by apply elem_of_nil in Hin.
Qed.

(** C1, as stated, fails: the sample overview carries the node name and
    every target field, and the pass run from the empty registry leaves
    fifteen points, not eleven. *)
Lemma getOverview_sample_not_eleven :
  sample_overview !! "node" = Some (JStr "rabbit@a") ∧
  well_shaped sample_overview ∧
  complete_overview sample_overview ∧
  size (registry (getOverview sample_net "http://a:15672" "guest" "guest"
                              empty_state).1) ≠ 11%nat.
Proof.
  split; [reflexivity|]. split; [apply sample_overview_well_shaped|].
  split; [apply sample_overview_complete|].
  vm_compute. discriminate.
Qed.

(** C1, amended: for every overview object whose [node] is a string,
    whose three groups are objects, whose object totals are all numbers
    and in which every target field is present and numeric, [getOverview]
    returns after exactly fifteen observations on distinct metrics, one
    per target field; each bears a documented metric name and the label
    [node], and carries the number of its field.  Run from the empty
    registry it leaves exactly fifteen points. *)
Theorem getOverview_fifteen_points (net : Network) (h u p : string)
    (response : jobject) (node : string) (s : State) :
  net (h ++ "/api/overview") u p = Body (Some (JObj response)) →
  response !! "node" = Some (JStr node) →
  well_shaped response →
  complete_overview response →
  ∃ pts : list MetricPoint,
    getOverview net h u p s =
      (mkState (observe_all pts (registry s)) (events s), Returned tt) ∧
    length pts = 15%nat ∧
    NoDup (point_key <$> pts) ∧
    size (registry (getOverview net h u p (mkState ∅ (events s))).1) = 15%nat ∧
    Forall (fun pt : MetricPoint =>
              pt.1.2 = node ∧ metric_name pt.1.1 ∈ documented_names) pts ∧
    ∀ m g k grp f, (m, g, k) ∈ overview_fields →
      group_of response g = Some grp → grp !! k = Some (JNum f) →
      (m, node, f) ∈ pts ∧
      (registry (getOverview net h u p s).1) !! (m, node) = Some f.
Proof.
  intros Hnet Hnode Hws Hc.
  assert (Hn : nodename_of response = node).
  { unfold nodename_of. by rewrite Hnode. }
  destruct (getOverview_well_shaped net h u p response s Hnet Hws)
    as (pts & Hrun & Hlen & Hnd & Hkeys & Hin).
  destruct (getOverview_well_shaped net h u p response (mkState ∅ (events s))
              Hnet Hws) as (pts0 & Hrun0 & Hlen0 & Hnd0 & _).
  exists pts. split; [done|]. split; [done|]. split; [done|].
  split; [rewrite Hrun0; simpl; by rewrite observe_all_size|].
  split.
  - apply Forall_forall. intros [[m l] v] Hpt.
    assert (Hk : (m, l) ∈ point_key <$> pts)
      by (by apply (list_elem_of_fmap_2' _ _ (m, l, v))).
    rewrite Hkeys in Hk. apply list_elem_of_fmap_1 in Hk as (m' & [= -> ->] & Hm').
    split; [done|]. simpl.
    apply list_elem_of_fmap_1 in Hm' as ([m'' g] & -> & Hm').
    apply list_elem_of_fmap_1 in Hm' as ([[m3 g3] k3] & [= -> ->] & Hm').
    by apply (proj1 (Forall_forall _ _) overview_names_documented (m3, g3, k3)).
  - intros m g k grp f Hf Hg Hk.
    assert (Hpt : (m, node, f) ∈ pts).
    { specialize (Hin m g k grp Hf Hg). rewrite Hn in Hin.
      unfold field in Hin. by rewrite Hk in Hin. }
    split; [done|]. rewrite Hrun. simpl. by apply observe_all_lookup.
Qed.

Lemma getOverview_fifteen_points_witness :
  ∃ pts : list MetricPoint,
    getOverview sample_net "http://a:15672" "guest" "guest" empty_state =
      (mkState (observe_all pts ∅) [], Returned tt) ∧
    length pts = 15%nat.
Proof.
  destruct (getOverview_fifteen_points sample_net "http://a:15672" "guest"
              "guest" sample_overview "rabbit@a" empty_state)
    as (pts & Hrun & Hlen & _).
  - reflexivity.
  - reflexivity.
  - apply sample_overview_well_shaped.
  - apply sample_overview_complete.
  - exists pts. by split.
Defined.

(** *** Missing fields *)

(** C2, as stated, fails: the overview has no [channels] field, the
    registry held 5 for [channels_total] of the node, and after the pass
    it holds zero. *)
Lemma getOverview_missing_field_not_untouched :
  group_of sample_overview_no_channels object_totals
    = Some (delete "channels" sample_object_totals) ∧
  delete "channels" sample_object_totals !! "channels" = None ∧
  registry prior_channels_5 !! (channelsTotal, "rabbit@a") = Some (f64_of_Z 5) ∧
  registry (getOverview no_channels_net "http://a:15672" "guest" "guest"
                        prior_channels_5).1 !! (channelsTotal, "rabbit@a")
    ≠ registry prior_channels_5 !! (channelsTotal, "rabbit@a").
Proof.
  split; [reflexivity|]. split; [reflexivity|]. split; [reflexivity|].
  vm_compute. discriminate.
Qed.

Lemma getOverview_shape_error (net : Network) (h u p : string) (d : Decoder)
    (s : State) :
  net (h ++ "/api/overview") u p = Body d →
  shape_error (Decode_obj d).1 →
  getOverview net h u p s
    = (logged (Decode_obj d).2 s, Panicked PanicTypeAssertion).
Proof.
  intros Hnet Herr.
  rewrite (getOverview_body net h u p d s Hnet). simpl.
  by rewrite (overview_points_shape_error _ Herr).
Qed.

(** C2, amended: take an overview object whose three groups are objects
    and a target field that is missing from its group or is not a number
    there.  When the object totals are all numbers, the field is observed
    all the same: [getOverview] returns and the registry holds zero for
    that metric under the node label, whatever it held before.  When
    [object_totals] holds a value that is not a number, the pass panics
    and the registry is left as it was. *)
Theorem getOverview_missing_field_zero (net : Network) (h u p : string)
    (response g1 g2 g3 : jobject) (s : State) (m : Metric) (g : Group)
    (k : string) :
  net (h ++ "/api/overview") u p = Body (Some (JObj response)) →
  group_of response object_totals = Some g1 →
  group_of response queue_totals = Some g2 →
  group_of response message_stats = Some g3 →
  (m, g, k) ∈ overview_fields →
  as_float64 (select g1 g2 g3 g !! k) = None →
  (all_numeric g1 →
   ∃ s', getOverview net h u p s = (s', Returned tt) ∧
         registry s' !! (m, nodename_of response) = Some f64_zero) ∧
  (¬ all_numeric g1 →
   ∃ s', getOverview net h u p s = (s', Panicked PanicTypeAssertion) ∧
         registry s' = registry s).
Proof.
  intros Hnet H1 H2 H3 Hf Hk. split.
  - intros Hn.
    assert (Hws : well_shaped response) by (by exists g1, g2, g3).
    destruct (getOverview_well_shaped net h u p response s Hnet Hws)
      as (pts & Hrun & Hlen & Hnd & Hkeys & Hin).
    eexists. split; [exact Hrun|]. simpl.
    apply observe_all_lookup; [done|].
    assert (Hg : group_of response g = Some (select g1 g2 g3 g))
      by (by destruct g).
    specialize (Hin m g k _ Hf Hg). unfold field in Hin.
    by rewrite Hk in Hin.
  - intros Hn. eexists. split.
    + apply (getOverview_shape_error net h u p _ s Hnet).
      right. by exists g1.
    + done.
Qed.

Lemma getOverview_missing_field_zero_witness :
  ∃ s', getOverview no_channels_net "http://a:15672" "guest" "guest"
                    prior_channels_5 = (s', Returned tt) ∧
        registry s' !! (channelsTotal, "rabbit@a") = Some f64_zero.
Proof.
  apply (getOverview_missing_field_zero no_channels_net "http://a:15672"
           "guest" "guest" sample_overview_no_channels
           (delete "channels" sample_object_totals) sample_queue_totals
           sample_message_stats prior_channels_5
           channelsTotal object_totals "channels").
  - reflexivity.
  - reflexivity.
  - reflexivity.
  - reflexivity.
  - apply list_elem_of_here.
  - reflexivity.
  - by apply (bool_decide_unpack _); vm_compute.
Defined.

(** *** Shape errors *)

Lemma getOverview_panicked_registry (net : Network) (h u p : string)
    (s s' : State) (pn : Panic) :
  getOverview net h u p s = (s', Panicked pn) → registry s' = registry s.
Proof.
  destruct (net (h ++ "/api/overview") u p) as [| |d] eqn:Hnet.
  - destruct (getOverview_fetch_failed net h u p s) as (err & pn' & ->);
      [by rewrite Hnet|].
    intros [= <- _]. by destruct err.
  - destruct (getOverview_fetch_failed net h u p s) as (err & pn' & ->);
      [by rewrite Hnet|].
    intros [= <- _]. by destruct err.
  - rewrite (getOverview_body net h u p d s Hnet). simpl.
    destruct (overview_points (Decode_obj d).1); [done|].
    intros [= <- _]. by destruct (Decode_obj d).2.
Qed.

(** C9: when a group of the overview is missing or is not an object, or
    [object_totals] holds a value that is not a number, [getOverview]
    panics on the type assertion before its first [Set]: the registry it
    leaves is the registry it found, for every metric and label. *)
Theorem getOverview_shape_error_no_write (net : Network) (h u p : string)
    (d : Decoder) (s : State) :
  net (h ++ "/api/overview") u p = Body d →
  shape_error (Decode_obj d).1 →
  ∃ s', getOverview net h u p s = (s', Panicked PanicTypeAssertion) ∧
        registry s' = registry s.
Proof.
  intros Hnet Herr.
  rewrite (getOverview_shape_error net h u p d s Hnet Herr).
  eexists. split; [reflexivity|]. by destruct (Decode_obj d).2.
Qed.

Lemma getOverview_shape_error_no_write_witness :
  ∃ s', getOverview bad_totals_net "http://a:15672" "guest" "guest"
                    prior_channels_5 = (s', Panicked PanicTypeAssertion) ∧
        registry s' = registry prior_channels_5.
Proof.
  apply (getOverview_shape_error_no_write bad_totals_net "http://a:15672"
           "guest" "guest" (Some (JObj sample_overview_bad_totals))).
  - reflexivity.
  - right. exists (<["queues" := JStr "four"]> sample_object_totals).
    split; [reflexivity|].
    by apply (bool_decide_unpack _); vm_compute.
Defined.

(** *** The node label *)

(** C10: when the three groups are well formed and [node] is absent or is
    not a string, [getOverview] returns and every overview metric holds
    its field's number (zero when the field is missing) under the empty
    label. *)
Theorem getOverview_node_missing (net : Network) (h u p : string)
    (response : jobject) (s : State) :
  net (h ++ "/api/overview") u p = Body (Some (JObj response)) →
  as_string (response !! "node") = None →
  well_shaped response →
  ∃ s', getOverview net h u p s = (s', Returned tt) ∧
    ∀ m g k grp, (m, g, k) ∈ overview_fields →
      group_of response g = Some grp →
      registry s' !! (m, "") = Some (field grp k).
Proof.
  intros Hnet Hnode Hws.
  assert (Hn : nodename_of response = "").
  { unfold nodename_of. by rewrite Hnode. }
  destruct (getOverview_well_shaped net h u p response s Hnet Hws)
    as (pts & Hrun & Hlen & Hnd & Hkeys & Hin).
  eexists. split; [exact Hrun|]. simpl.
  intros m g k grp Hf Hg. apply observe_all_lookup; [done|].
  rewrite <- Hn. by apply (Hin m g k grp).
Qed.

Lemma sample_overview_no_node_well_shaped : well_shaped sample_overview_no_node.
Proof.
  exists sample_object_totals, sample_queue_totals, sample_message_stats.
  repeat split; try reflexivity.
  by apply (bool_decide_unpack _); vm_compute.
Qed.

Lemma getOverview_node_missing_witness :
  ∃ s', getOverview no_node_net "http://a:15672" "guest" "guest" empty_state
          = (s', Returned tt) ∧
        registry s' !! (connectionsTotal, "") = Some (f64_of_Z 2).
Proof.
  destruct (getOverview_node_missing no_node_net "http://a:15672" "guest"
              "guest" sample_overview_no_node empty_state)
    as (s' & Hrun & Hval).
  - reflexivity.
  - reflexivity.
  - apply sample_overview_no_node_well_shaped.
  - exists s'. split; [done|].
    apply (Hval connectionsTotal object_totals "connections" sample_object_totals).
    + apply list_elem_of_further, list_elem_of_here.
    + reflexivity.
Defined.

(** *** The queues pass *)

Lemma Decode_objs_objects (queues : list jobject) :
  Decode_objs (Some (JArr (JObj <$> queues))) = (queues, false).
Proof.
  unfold Decode_objs. f_equal.
  - rewrite <- list_fmap_compose. induction queues as [|v l IH]; [done|].
    rewrite fmap_cons. by f_equal.
  - induction queues as [|v l IH]; [done|]. by rewrite fmap_cons.
Qed.

(** C4: for every non-empty array of queue objects whose first element
    has a string [node] and whose elements all have a numeric [messages],
    [getNumberOfMessages] makes one observation and returns: the registry
    changes at [messages_total] under the first element's node name only,
    and holds there the sum of the [messages] fields, added in array
    order from 0.0. *)
Theorem getNumberOfMessages_total (net : Network) (h u p : string)
    (first : jobject) (rest : list jobject) (nodename : string) (s : State) :
  net (h ++ "/api/queues") u p = Body (Some (JArr (JObj <$> first :: rest))) →
  first !! "node" = Some (JStr nodename) →
  Forall has_messages (first :: rest) →
  getNumberOfMessages net h u p s =
    (mkState (<[(messagesTotal, nodename) := total_messages_of (first :: rest)]>
                (registry s))
             (events s),
     Returned tt).
Proof.
  intros Hnet Hnode Hall.
  rewrite (getNumberOfMessages_body net h u p _ s Hnet).
  rewrite Decode_objs_objects. simpl.
  unfold queues_point. rewrite Hnode. simpl.
  by rewrite decide_True.
Qed.

(** The example of the specification: the array
    [[{"node":"rabbit@a","messages":3},{"node":"rabbit@a","messages":7}]]
    yields [messages_total{node="rabbit@a"} = 10]. *)
Lemma getNumberOfMessages_total_witness :
  getNumberOfMessages sample_net "http://a:15672" "guest" "guest" empty_state
    = (mkState {[ (messagesTotal, "rabbit@a") := f64_of_Z 10 ]} [], Returned tt).
Proof.
  rewrite (getNumberOfMessages_total sample_net "http://a:15672" "guest" "guest"
             (list_to_map [ ("node", JStr "rabbit@a"); ("messages", num 3) ])
             [ list_to_map [ ("node", JStr "rabbit@a"); ("messages", num 7) ] ]
             "rabbit@a" empty_state).
  - reflexivity.
  - reflexivity.
  - reflexivity.
  - repeat constructor; by eexists.
Defined.

(** *** One poll cycle *)

Lemma requestData_run (ParseDuration : string → option Z) (net : Network)
    (node : Node) (s : State) :
  requestData ParseDuration net node s =
    match fetch_and_map net node s with
    | (s', Returned _) =>
        (mkState (registry s')
                 (events s' ++ interval_events (ParseDuration (Interval node))),
         Returned tt)
    | (s', Panicked _) =>
        (mkState (registry s') (events s' ++ [EvSleep (10 * Second)]),
         Returned tt)
    end.
Proof.
  unfold requestData, fetch_and_map, defer_recover, bind.
  destruct (getOverview net (Url node) (Uname node) (Password node) s)
    as [s1 [[]|pn]]; [|reflexivity].
  destruct (getNumberOfMessages net (Url node) (Uname node) (Password node) s1)
    as [s2 [[]|pn]]; [|reflexivity].
  destruct (ParseDuration (Interval node)); simpl.
  - reflexivity.
  - unfold time_Sleep, emit. simpl. by rewrite <- (assoc_L (++)).
Qed.

Lemma requestData_returns (ParseDuration : string → option Z) (net : Network)
    (node : Node) (s : State) :
  ∃ s', requestData ParseDuration net node s = (s', Returned tt).
Proof.
  rewrite requestData_run.
  destruct (fetch_and_map net node s) as [s' [[]|pn]]; by eexists.
Qed.

Lemma runRequestLoop_returns (ParseDuration : string → option Z)
    (net : nat → Network) (node : Node) (n : nat) (s : State) :
  ∃ s', runRequestLoop ParseDuration net node n s = (s', Returned tt).
Proof.
  revert net s. induction n as [|n IH]; intros net s; simpl.
  - by eexists.
  - destruct (requestData_returns ParseDuration (net O) node s) as [s1 H1].
    rewrite (bind_returned _ _ _ _ _ H1). apply IH.
Qed.

Lemma logged_events (err : bool) (s : State) :
  events (logged err s) = (events s ++ (if err then [EvLogError] else []))%list.
Proof. destruct err; simpl; [done|]. by rewrite app_nil_r. Qed.

Lemma logged_registry (err : bool) (s : State) :
  registry (logged err s) = registry s.
Proof. by destruct err. Qed.

Lemma getOverview_events (net : Network) (h u p : string) (s s' : State)
    (o : Outcome unit) :
  getOverview net h u p s = (s', o) → ∃ err, events s' = events (logged err s).
Proof.
  destruct (net (h ++ "/api/overview") u p) as [| |d] eqn:Hnet.
  1,2: destruct (getOverview_fetch_failed net h u p s) as (err & pn & ->);
    [by rewrite Hnet|]; intros [= <- _]; by exists err.
  rewrite (getOverview_body net h u p d s Hnet). simpl.
  destruct (overview_points (Decode_obj d).1); intros [= <- _]; by eexists.
Qed.

Lemma getNumberOfMessages_events (net : Network) (h u p : string)
    (s s' : State) (o : Outcome unit) :
  getNumberOfMessages net h u p s = (s', o) →
  ∃ err, events s' = events (logged err s).
Proof.
  destruct (net (h ++ "/api/queues") u p) as [| |d] eqn:Hnet.
  1,2: destruct (getNumberOfMessages_fetch_failed net h u p s)
         as (err & pn & ->);
    [by rewrite Hnet|]; intros [= <- _]; by exists err.
  rewrite (getNumberOfMessages_body net h u p d s Hnet). simpl.
  destruct (queues_point (Decode_objs d).1); intros [= <- _]; by eexists.
Qed.

Lemma fetch_and_map_events (net : Network) (node : Node) (s s' : State)
    (o : Outcome unit) :
  fetch_and_map net node s = (s', o) →
  ∃ logs, events s' = (events s ++ logs)%list ∧
          Forall (fun e => e = EvLogError) logs.
Proof.
  unfold fetch_and_map, bind.
  destruct (getOverview net (Url node) (Uname node) (Password node) s)
    as [s1 o1] eqn:H1.
  apply getOverview_events in H1 as [e1 H1]. rewrite logged_events in H1.
  destruct o1 as [[]|pn].
  - intros H2. apply getNumberOfMessages_events in H2 as [e2 H2].
    rewrite logged_events, H1, <- (assoc_L (++)) in H2.
    eexists. split; [exact H2|]. destruct e1, e2; repeat constructor.
  - intros [= <- _]. eexists. split; [exact H1|].
    destruct e1; repeat constructor.
Qed.

(** *** Errors of a cycle *)

Lemma queues_point_error (response : list jobject) :
  queues_error response → ∃ pn, queues_point response = inl pn.
Proof.
  unfold queues_point.
  intros [->|[(first & rest & -> & Hnode)|Hnot]].
  - by eexists.
  - rewrite Hnode. by eexists.
  - destruct response as [|first rest]; [by eexists|].
    destruct (as_string (first !! "node")); [|by eexists].
    rewrite decide_False by done. by eexists.
Qed.

Lemma getOverview_panics (net : Network) (h u p : string) (s : State) :
  (fetch_failed (net (h ++ "/api/overview") u p) ∨
   ∃ d, net (h ++ "/api/overview") u p = Body d ∧ shape_error (Decode_obj d).1) →
  ∃ s' pn, getOverview net h u p s = (s', Panicked pn).
Proof.
  intros [Hf|(d & Hnet & Herr)].
  - destruct (getOverview_fetch_failed net h u p s Hf) as (err & pn & ->).
    by eexists _, _.
  - rewrite (getOverview_shape_error net h u p d s Hnet Herr). by eexists _, _.
Qed.

Lemma getNumberOfMessages_panics (net : Network) (h u p : string) (s : State) :
  (fetch_failed (net (h ++ "/api/queues") u p) ∨
   ∃ d, net (h ++ "/api/queues") u p = Body d ∧ queues_error (Decode_objs d).1) →
  ∃ s' pn, getNumberOfMessages net h u p s = (s', Panicked pn).
Proof.
  intros [Hf|(d & Hnet & Herr)].
  - destruct (getNumberOfMessages_fetch_failed net h u p s Hf) as (err & pn & ->).
    by eexists _, _.
  - rewrite (getNumberOfMessages_body net h u p d s Hnet). simpl.
    destruct (queues_point_error _ Herr) as [pn ->]. by eexists _, _.
Qed.

Lemma fetch_and_map_panics (net : Network) (node : Node) (s : State) :
  CycleError net node → ∃ s' pn, fetch_and_map net node s = (s', Panicked pn).
Proof.
  intros Herr. unfold fetch_and_map, bind.
  assert (Hq : (fetch_failed (net (queues_url node) (Uname node) (Password node)) ∨
                ∃ d, net (queues_url node) (Uname node) (Password node) = Body d ∧
                     queues_error (Decode_objs d).1) →
               ∃ s' pn,
                 (let (s1, o) := getOverview net (Url node) (Uname node)
                                   (Password node) s in
                  match o with
                  | Returned _ =>
                      getNumberOfMessages net (Url node) (Uname node)
                        (Password node) s1
                  | Panicked p => (s1, Panicked p)
                  end) = (s', Panicked pn)).
  { intros Hq.
    destruct (getOverview net (Url node) (Uname node) (Password node) s)
      as [s1 [[]|pn]]; [|by eexists _, _].
    by apply getNumberOfMessages_panics. }
  assert (Ho : (fetch_failed (net (overview_url node) (Uname node) (Password node)) ∨
                ∃ d, net (overview_url node) (Uname node) (Password node) = Body d ∧
                     shape_error (Decode_obj d).1) →
               ∃ s' pn,
                 (let (s1, o) := getOverview net (Url node) (Uname node)
                                   (Password node) s in
                  match o with
                  | Returned _ =>
                      getNumberOfMessages net (Url node) (Uname node)
                        (Password node) s1
                  | Panicked p => (s1, Panicked p)
                  end) = (s', Panicked pn)).
  { intros Ho.
    destruct (getOverview_panics net (Url node) (Uname node) (Password node) s Ho)
      as (s' & pn & ->).
    by eexists _, _. }
  destruct Herr as [Hf|d Hnet Hm|Hf|d Hnet Hm].
  - apply Ho. by left.
  - apply Ho. right. by exists d.
  - apply Hq. by left.
  - apply Hq. right. by exists d.
Qed.

Lemma queues_point_panic (response : list jobject) (pn : Panic) :
  queues_point response = inl pn → queues_error response.
Proof.
  unfold queues_point, queues_error.
  destruct response as [|first rest]; [by left|].
  destruct (as_string (first !! "node")) eqn:Hnode;
    [|intros _; right; left; by exists first, rest].
  destruct (decide (Forall has_messages (first :: rest))); [done|].
  intros _. by right; right.
Qed.

(** The four errors are all there is: a fetch and map that panics has
    met one of them. *)
Lemma fetch_and_map_panicked (net : Network) (node : Node) (s s' : State)
    (pn : Panic) :
  fetch_and_map net node s = (s', Panicked pn) → CycleError net node.
Proof.
  unfold fetch_and_map, bind.
  destruct (net (overview_url node) (Uname node) (Password node))
    as [| |d] eqn:Ho; [by intros _; apply overview_fetch_error; rewrite Ho..|].
  rewrite (getOverview_body net _ _ _ d s Ho). simpl.
  destruct (overview_points (Decode_obj d).1) as [pts|] eqn:Hpts.
  2: { intros _. apply (overview_map_error net node d Ho).
       destruct (well_shaped_or_error (Decode_obj d).1) as [Hws|Herr]; [|done].
       destruct (overview_points_well_shaped _ Hws) as (? & Hsome & _).
       congruence. }
  destruct (net (queues_url node) (Uname node) (Password node))
    as [| |d'] eqn:Hq; [by intros _; apply queues_fetch_error; rewrite Hq..|].
  rewrite (getNumberOfMessages_body net _ _ _ d' _ Hq). simpl.
  destruct (queues_point (Decode_objs d').1) as [pn'|pt] eqn:Hpt; [|done].
  intros _. apply (queues_map_error net node d' Hq).
  by apply (queues_point_panic _ pn').
Qed.

Lemma fetch_and_map_returned (net : Network) (node : Node) (s s1 : State) :
  fetch_and_map net node s = (s1, Returned tt) →
  events s1
    = (events s ++ replicate (decode_errors net node) EvLogError)%list.
Proof.
  unfold fetch_and_map, bind, decode_errors.
  destruct (net (overview_url node) (Uname node) (Password node))
    as [| |d] eqn:Ho.
  1,2: destruct (getOverview_fetch_failed net (Url node) (Uname node)
                   (Password node) s) as (err & pn & ->);
    [by unfold overview_url in Ho; rewrite Ho|done].
  rewrite (getOverview_body net _ _ _ d s Ho). simpl.
  destruct (overview_points (Decode_obj d).1) as [pts|]; [|done].
  destruct (net (queues_url node) (Uname node) (Password node))
    as [| |d'] eqn:Hq.
  1,2: destruct (getNumberOfMessages_fetch_failed net (Url node) (Uname node)
                   (Password node)
                   (mkState (observe_all pts (registry (logged (Decode_obj d).2 s)))
                            (events (logged (Decode_obj d).2 s))))
         as (err & pn & ->);
    [by unfold queues_url in Hq; rewrite Hq|done].
  rewrite (getNumberOfMessages_body net _ _ _ d' _ Hq). simpl.
  destruct (queues_point (Decode_objs d').1) as [pn|pt]; [done|].
  intros [= <-]. simpl. rewrite !logged_events. simpl.
  rewrite <- (assoc_L (++)). f_equal.
  by destruct (Decode_obj d).2, (Decode_objs d').2.
Qed.

Lemma sleeps_app (l1 l2 : list Event) :
  sleeps (l1 ++ l2) = (sleeps l1 + sleeps l2)%nat.
Proof. unfold sleeps. by rewrite filter_app, length_app. Qed.

Lemma requestData_sleeps (ParseDuration : string → option Z) (net : Network)
    (node : Node) (s : State) :
  sleeps (events (requestData ParseDuration net node s).1)
    = S (sleeps (events s)).
Proof.
  rewrite requestData_run.
  destruct (fetch_and_map net node s) as [s1 o] eqn:Hrun.
  destruct (fetch_and_map_events net node s s1 o Hrun) as (logs & Hev & Hlogs).
  assert (Hz : sleeps logs = 0%nat).
  { clear Hev. induction Hlogs as [|e l -> _ IH]; [done|]. exact IH. }
  destruct o as [[]|pn]; simpl; rewrite sleeps_app, Hev, sleeps_app, Hz.
  - destruct (ParseDuration (Interval node)); simpl; unfold sleeps; simpl; lia.
  - unfold sleeps. simpl. lia.
Qed.

Lemma runRequestLoop_counts (ParseDuration : string → option Z)
    (nets : nat → Network) (node : Node) (n : nat) (s : State) :
  ∃ s', runRequestLoop ParseDuration nets node n s = (s', Returned tt) ∧
        sleeps (events s') = (sleeps (events s) + n)%nat.
Proof.
  revert nets s. induction n as [|n IH]; intros nets s; simpl.
  - eexists. split; [reflexivity|]. simpl. lia.
  - destruct (requestData_returns ParseDuration (nets O) node s) as [s1 H1].
    rewrite (bind_returned _ _ _ _ _ H1).
    destruct (IH (fun i => nets (S i)) s1) as (s' & Hrun & Hs).
    exists s'. split; [exact Hrun|]. rewrite Hs.
    pose proof (requestData_sleeps ParseDuration (nets O) node s) as Hone.
    rewrite H1 in Hone. simpl in Hone. lia.
Qed.

(** C5, as stated, fails for decode errors: the overview body holds a
    number out of range, [d.Decode] returns an error, [decodeObj] logs it
    and hands on the map that was stored all the same; the cycle maps it,
    maps the queues and ends in the sleep of its interval, thirty seconds
    here, not in the ten second cooldown. *)
Lemma requestData_decode_error_no_cooldown :
  out_of_range_net (overview_url sample_node) (Uname sample_node)
                   (Password sample_node) = Body out_of_range_overview ∧
  (Decode_obj out_of_range_overview).2 = true ∧
  events (requestData parse_seconds out_of_range_net sample_node
                      empty_state).1
    = [EvLogError; EvSleep (30 * Second)] ∧
  EvSleep (10 * Second)
    ∉ events (requestData parse_seconds out_of_range_net sample_node
                          empty_state).1.
Proof.
  split; [reflexivity|]. split; [reflexivity|]. split; [reflexivity|].
  change (events (requestData parse_seconds out_of_range_net sample_node
                              empty_state).1)
    with [EvLogError; EvSleep (30 * Second)].
  intros Hin.
  apply elem_of_cons in Hin as [Hin|Hin]; [discriminate|].
  apply elem_of_cons in Hin as [Hin|Hin]; [by vm_compute in Hin|].
  by apply elem_of_nil in Hin.
Qed.

(** C5, amended: an error in the fetch of a snapshot or in its mapping,
    and with it every decode error that leaves the snapshot nil or
    otherwise unfit to be mapped, sends the cycle to the cooldown:
    [requestData] returns normally, having added error logs only and then
    one sleep of ten seconds, the interval sleep being skipped; the loop
    then runs its next iterations from that very state, each of them
    sleeping once, and none ever panics.  A decode error that leaves a
    snapshot fit to be mapped is an error log and no more: a cycle
    without fetch or map error adds one error log per decode error and
    ends in the sleep of its interval. *)
Theorem requestData_error_cooldown (ParseDuration : string → option Z)
    (nets : nat → Network) (node : Node) (n : nat) (s : State) :
  (CycleError (nets O) node →
   ∃ s' logs,
     requestData ParseDuration (nets O) node s = (s', Returned tt) ∧
     events s' = (events s ++ logs ++ [EvSleep (10 * Second)])%list ∧
     Forall (fun e => e = EvLogError) logs ∧
     ∃ s'',
       runRequestLoop ParseDuration nets node (S n) s = (s'', Returned tt) ∧
       runRequestLoop ParseDuration (fun i => nets (S i)) node n s'
         = (s'', Returned tt) ∧
       sleeps (events s'') = (sleeps (events s') + n)%nat) ∧
  (¬ CycleError (nets O) node →
   ∃ s',
     requestData ParseDuration (nets O) node s = (s', Returned tt) ∧
     events s'
       = (events s ++ replicate (decode_errors (nets O) node) EvLogError
            ++ interval_events (ParseDuration (Interval node)))%list).
Proof.
  split.
  - intros Herr.
    destruct (fetch_and_map_panics (nets O) node s Herr) as (s1 & pn & Hrun).
    destruct (fetch_and_map_events (nets O) node s s1 _ Hrun)
      as (logs & Hev & Hlogs).
    assert (Hreq : requestData ParseDuration (nets O) node s
                   = (mkState (registry s1)
                              (events s1 ++ [EvSleep (10 * Second)]),
                      Returned tt))
      by (by rewrite requestData_run, Hrun).
    eexists _, logs. split; [exact Hreq|]. simpl.
    split; [by rewrite Hev, <- (assoc_L (++))|].
    split; [done|].
    destruct (runRequestLoop_counts ParseDuration (fun i => nets (S i)) node n
                (mkState (registry s1) (events s1 ++ [EvSleep (10 * Second)])))
      as (s'' & Hloop & Hsleeps).
    exists s''. split; [|by split].
    simpl. by rewrite (bind_returned _ _ _ _ _ Hreq).
  - intros Hno. rewrite requestData_run.
    destruct (fetch_and_map (nets O) node s) as [s1 [[]|pn]] eqn:Hrun.
    + eexists. split; [reflexivity|]. simpl.
      rewrite (fetch_and_map_returned _ _ _ _ Hrun).
      by rewrite <- (assoc_L (++)).
    + destruct Hno. by apply (fetch_and_map_panicked _ _ _ _ _ Hrun).
Qed.

Lemma requestData_error_cooldown_witness :
  ∃ s' logs,
    requestData parse_seconds down_net sample_node empty_state
      = (s', Returned tt) ∧
    events s' = ([] ++ logs ++ [EvSleep (10 * Second)])%list ∧
    Forall (fun e => e = EvLogError) logs ∧
    ∃ s'',
      runRequestLoop parse_seconds (fun _ => down_net) sample_node 3 empty_state
        = (s'', Returned tt) ∧
      runRequestLoop parse_seconds (fun _ => down_net) sample_node 2 s'
        = (s'', Returned tt) ∧
      sleeps (events s'') = (sleeps (events s') + 2)%nat.
Proof.
  apply (requestData_error_cooldown parse_seconds (fun _ => down_net)
           sample_node 2 empty_state).
  apply overview_fetch_error. exact I.
Defined.

(** C3: when the queues array is empty, [getNumberOfMessages] stops at
    [response[0]] with Go's index-out-of-range panic, having written
    nothing and logged nothing; [requestData] recovers from it like from
    any other failure, sleeps its ten seconds and returns normally. *)
Theorem getNumberOfMessages_empty_array (ParseDuration : string → option Z)
    (net : Network) (node : Node) (s : State) :
  net (queues_url node) (Uname node) (Password node) = Body (Some (JArr [])) →
  getNumberOfMessages net (Url node) (Uname node) (Password node) s
    = (s, Panicked PanicIndexOutOfRange) ∧
  ∃ s', requestData ParseDuration net node s = (s', Returned tt) ∧
        last (events s') = Some (EvSleep (10 * Second)).
Proof.
  intros Hnet. split.
  - by rewrite (getNumberOfMessages_body net _ _ _ _ s Hnet).
  - assert (Herr : CycleError net node).
    { apply (queues_map_error net node _ Hnet). by left. }
    destruct (fetch_and_map_panics net node s Herr) as (s1 & pn & Hrun).
    rewrite requestData_run, Hrun.
    eexists. split; [reflexivity|]. simpl. by rewrite last_snoc.
Qed.

Lemma getNumberOfMessages_empty_array_witness :
  getNumberOfMessages no_queues_net "http://a:15672" "guest" "guest" empty_state
    = (empty_state, Panicked PanicIndexOutOfRange) ∧
  ∃ s', requestData parse_seconds no_queues_net sample_node empty_state
          = (s', Returned tt) ∧
        last (events s') = Some (EvSleep (10 * Second)).
Proof.
  apply (getNumberOfMessages_empty_array parse_seconds no_queues_net
           sample_node empty_state).
  reflexivity.
Defined.

(** *** The interval *)

Lemma length_zero_empty (s : string) : (String.length s =? 0)%nat = true ↔ s = "".
Proof. destruct s; simpl; split; by try done. Qed.

Lemma resolve_interval_Interval (config : Config) (node : Node) :
  Interval (resolve_interval config node)
    = if decide (Interval node = "") then cfg_Interval config else Interval node.
Proof.
  unfold resolve_interval.
  destruct (String.length (Interval node) =? 0)%nat eqn:Hlen.
  - apply length_zero_empty in Hlen. by rewrite decide_True.
  - rewrite decide_False; [done|]. intros Hempty.
    apply length_zero_empty in Hempty. congruence.
Qed.

(** C6: for every node of the configuration, the loop is started with
    the node's own interval string when it is not empty and with the
    global one otherwise; after a fetch and map that succeeded the cycle
    sleeps for the duration parsed from that string, and when the string
    does not parse it logs a warning and sleeps 30 seconds; either way
    [requestData] returns normally. *)
Theorem requestData_interval (ParseDuration : string → option Z)
    (config : Config) (nodes : list Node) (node : Node) :
  Nodes config = Some nodes →
  node ∈ nodes →
  let started_with := resolve_interval config node in
  updateNodesStats config = Returned (resolve_interval config <$> nodes) ∧
  started_with ∈ resolve_interval config <$> nodes ∧
  Interval started_with
    = (if decide (Interval node = "") then cfg_Interval config
       else Interval node) ∧
  ∀ (net : Network) (s s1 : State),
    fetch_and_map net started_with s = (s1, Returned tt) →
    requestData ParseDuration net started_with s =
      (mkState (registry s1)
               (events s1 ++
                match ParseDuration (Interval started_with) with
                | Some dt => [EvSleep dt]
                | None => [EvLogWarn; EvSleep (30 * Second)]
                end),
       Returned tt).
Proof.
  intros Hnodes Hin started_with.
  split; [unfold updateNodesStats; by rewrite Hnodes|].
  split; [by apply list_elem_of_fmap_2|].
  split; [apply resolve_interval_Interval|].
  intros net s s1 Hrun. by rewrite requestData_run, Hrun.
Qed.

Lemma requestData_interval_witness :
  Interval (resolve_interval sample_config
              (mkNode "b" "http://a:15672" "guest" "guest" "")) = "soon" ∧
  ∃ s1,
    requestData parse_seconds sample_net
        (resolve_interval sample_config
           (mkNode "b" "http://a:15672" "guest" "guest" "")) empty_state
      = (mkState (registry s1) (events s1 ++ [EvLogWarn; EvSleep (30 * Second)]),
         Returned tt).
Proof.
  destruct (requestData_interval parse_seconds sample_config
              [ sample_node; mkNode "b" "http://a:15672" "guest" "guest" "" ]
              (mkNode "b" "http://a:15672" "guest" "guest" ""))
    as (_ & _ & Hint & Hsleep).
  - reflexivity.
  - apply list_elem_of_further, list_elem_of_here.
  - split; [exact Hint|].
    eexists. apply (Hsleep sample_net empty_state). vm_compute. reflexivity.
Defined.

(** *** Overwriting *)

(** C7: for every metric vector, gauge or counter, and every label, a
    second observation replaces the first: the registry holds the second
    value there and is as a whole what it would be had the first never
    been made.  Observing 5 and then 9 leaves 9, which is not 5 + 9.  The
    same holds of whole passes: from any registry, [getOverview],
    [getNumberOfMessages] and a full cycle leave what they leave from the
    empty registry, laid over what was there, so no value of an earlier
    poll enters a later one. *)
Theorem observe_overwrites :
  (∀ (m : Metric) (node : string) (v1 v2 : float64) (s : State),
     let s1 := (WithLabelValues_Set m node v1 s).1 in
     let s2 := (WithLabelValues_Set m node v2 s1).1 in
     (metric_kind m = Gauge ∨ metric_kind m = Counter) ∧
     registry s2 !! (m, node) = Some v2 ∧
     registry s2 = registry (WithLabelValues_Set m node v2 s).1) ∧
  (∀ (m : Metric) (node : string) (s : State),
     let s1 := (WithLabelValues_Set m node (f64_of_Z 5) s).1 in
     let s2 := (WithLabelValues_Set m node (f64_of_Z 9) s1).1 in
     registry s2 !! (m, node) = Some (f64_of_Z 9) ∧
     f64_of_Z 9 ≠ f64_add (f64_of_Z 5) (f64_of_Z 9) ∧
     f64_add (f64_of_Z 5) (f64_of_Z 9) = f64_of_Z 14) ∧
  (∀ (ParseDuration : string → option Z) (net : Network) (node : Node)
     (s : State),
     registry (getOverview net (Url node) (Uname node) (Password node) s).1
       = registry (getOverview net (Url node) (Uname node) (Password node)
                               empty_state).1 ∪ registry s ∧
     registry (getNumberOfMessages net (Url node) (Uname node) (Password node)
                                   s).1
       = registry (getNumberOfMessages net (Url node) (Uname node)
                                       (Password node) empty_state).1
         ∪ registry s ∧
     registry (requestData ParseDuration net node s).1
       = registry (requestData ParseDuration net node empty_state).1
         ∪ registry s).
Proof.
  split; [|split].
  - intros m node v1 v2 s s1 s2.
    split; [destruct m; auto|].
    unfold s2, s1, WithLabelValues_Set. simpl.
    split; [by rewrite lookup_insert_eq|by rewrite insert_insert_eq].
  - intros m node s s1 s2.
    split; [unfold s2, WithLabelValues_Set; simpl; by rewrite lookup_insert_eq|].
    split; [by vm_compute|by vm_compute].
  - intros ParseDuration net node s.
    split; [|split].
    + by rewrite (blind_getOverview net _ _ _ s).
    + by rewrite (blind_getNumberOfMessages net _ _ _ s).
    + by rewrite (blind_requestData ParseDuration net node s).
Qed.

(** *** Loops side by side *)











(** * Further properties of the code *)

(** ** The passes *)

Lemma getNumberOfMessages_panicked_registry (net : Network) (h u p : string)
    (s s' : State) (pn : Panic) :
  getNumberOfMessages net h u p s = (s', Panicked pn) →
  registry s' = registry s.
Proof.
  destruct (net (h ++ "/api/queues") u p) as [| |d] eqn:Hnet.
  1,2: destruct (getNumberOfMessages_fetch_failed net h u p s)
         as (err & pn' & ->);
    [by rewrite Hnet|]; intros [= <- _]; apply logged_registry.
  rewrite (getNumberOfMessages_body net h u p d s Hnet). simpl.
  destruct (queues_point (Decode_objs d).1); [|done].
  intros [= <- _]. apply logged_registry.
Qed.

(** X1: [getNumberOfMessages] writes once, at its very end: whenever it
    panics, on the fetch, on the empty array, on a first element without
    a string [node] or on any element without a numeric [messages], the
    registry is what it was, and so is the registry after a panic of
    [getOverview]. *)
Theorem passes_panic_no_write (net : Network) (h u p : string)
    (s s' : State) (pn : Panic) :
  getNumberOfMessages net h u p s = (s', Panicked pn) ∨
  getOverview net h u p s = (s', Panicked pn) →
  registry s' = registry s.
Proof.
  intros [Hrun|Hrun].
  - by apply (getNumberOfMessages_panicked_registry net h u p s s' pn).
  - by apply (getOverview_panicked_registry net h u p s s' pn).
Qed.

Lemma passes_panic_no_write_witness :
  getNumberOfMessages down_net "http://a:15672" "guest" "guest" prior_channels_5
    = (mkState (registry prior_channels_5) [EvLogError], Panicked PanicError) ∧
  registry (mkState (registry prior_channels_5) [EvLogError])
    = registry prior_channels_5.
Proof.
  split; [reflexivity|].
  apply (passes_panic_no_write down_net "http://a:15672" "guest" "guest"
           prior_channels_5 _ PanicError).
  left. reflexivity.
Defined.

(** X2: a cycle is not atomic across its two passes.  When the overview
    is well shaped and the queues pass then fails, in the fetch or in the
    mapping, [requestData] ends in the ten second sleep with all fifteen
    overview metrics written under the overview's node label and
    [messages_total] left as it was under every label. *)
Theorem requestData_queues_failure_keeps_overview
    (ParseDuration : string → option Z) (net : Network) (node : Node)
    (response : jobject) (s : State) :
  net (overview_url node) (Uname node) (Password node)
    = Body (Some (JObj response)) →
  well_shaped response →
  (fetch_failed (net (queues_url node) (Uname node) (Password node)) ∨
   ∃ d, net (queues_url node) (Uname node) (Password node) = Body d ∧
        queues_error (Decode_objs d).1) →
  ∃ s', requestData ParseDuration net node s = (s', Returned tt) ∧
    last (events s') = Some (EvSleep (10 * Second)) ∧
    (∀ m g k grp, (m, g, k) ∈ overview_fields →
       group_of response g = Some grp →
       registry s' !! (m, nodename_of response) = Some (field grp k)) ∧
    ∀ l, registry s' !! (messagesTotal, l) = registry s !! (messagesTotal, l).
Proof.
  intros Hnet Hws Hq.
  destruct (getOverview_well_shaped net (Url node) (Uname node) (Password node)
              response s Hnet Hws) as (pts & Hrun & Hlen & Hnd & Hkeys & Hin).
  destruct (getNumberOfMessages_panics net (Url node) (Uname node)
              (Password node)
              (mkState (observe_all pts (registry s)) (events s)) Hq)
    as (s1 & pn & Hrun2).
  pose proof (getNumberOfMessages_panicked_registry _ _ _ _ _ _ _ Hrun2) as Hreg.
  simpl in Hreg.
  rewrite requestData_run. unfold fetch_and_map.
  rewrite (bind_returned _ _ _ _ _ Hrun), Hrun2.
  eexists. split; [reflexivity|]. simpl.
  split; [by rewrite last_snoc|]. rewrite Hreg. split.
  - intros m g k grp Hf Hg. apply observe_all_lookup; [done|]. by apply (Hin m g k).
  - intros l. apply observe_all_lookup_other. rewrite Hkeys.
    intros Hm. apply list_elem_of_fmap_1 in Hm as (m & [= <- _] & Hm).
    revert Hm. by apply (bool_decide_unpack _); vm_compute.
Qed.

Lemma requestData_queues_failure_keeps_overview_witness :
  ∃ s', requestData parse_seconds no_queues_net sample_node prior_channels_5
          = (s', Returned tt) ∧
        registry s' !! (channelsTotal, "rabbit@a") = Some (f64_of_Z 1) ∧
        registry s' !! (messagesTotal, "rabbit@a") = None.
Proof.
  destruct (requestData_queues_failure_keeps_overview parse_seconds
              no_queues_net sample_node sample_overview prior_channels_5)
    as (s' & Hrun & _ & Hov & Hq).
  - reflexivity.
  - apply sample_overview_well_shaped.
  - right. exists (Some (JArr [])). split; [reflexivity|]. by left.
  - exists s'. split; [exact Hrun|]. split.
    + apply (Hov channelsTotal object_totals "channels" sample_object_totals).
      * apply list_elem_of_here.
      * reflexivity.
    + rewrite Hq. reflexivity.
Defined.

(** ** What a cycle logs and how long it sleeps *)

Lemma fetch_and_map_logs (net : Network) (node : Node) (s s' : State)
    (o : Outcome unit) :
  fetch_and_map net node s = (s', o) →
  ∃ logs, events s' = (events s ++ logs)%list ∧
          Forall (fun e => e = EvLogError) logs ∧ (length logs ≤ 2)%nat.
Proof.
  unfold fetch_and_map, bind.
  destruct (getOverview net (Url node) (Uname node) (Password node) s)
    as [s1 o1] eqn:H1.
  apply getOverview_events in H1 as [e1 H1]. rewrite logged_events in H1.
  destruct o1 as [[]|pn].
  - intros H2. apply getNumberOfMessages_events in H2 as [e2 H2].
    rewrite logged_events, H1, <- (assoc_L (++)) in H2.
    eexists. split; [exact H2|].
    destruct e1, e2; simpl; split; try (repeat constructor); lia.
  - intros [= <- _]. eexists. split; [exact H1|].
    destruct e1; simpl; split; try (repeat constructor); lia.
Qed.

(** X3: what one cycle adds to its goroutine's history is at most two
    error logs, one per snapshot, and then its single sleep, which is
    its last act.  The sleep is the ten second cooldown exactly when the
    fetch or the mapping of a snapshot failed; otherwise it is the sleep
    of the parsed interval, or a warning and thirty seconds when the
    interval does not parse.  An error log is therefore not always
    followed by the cooldown: a decode error that leaves a snapshot fit
    to be mapped is logged and the cycle goes on. *)
Theorem requestData_events (ParseDuration : string → option Z)
    (net : Network) (node : Node) (s : State) :
  ∃ s' logs,
    requestData ParseDuration net node s = (s', Returned tt) ∧
    Forall (fun e => e = EvLogError) logs ∧
    (length logs ≤ 2)%nat ∧
    ((CycleError net node ∧
      events s' = (events s ++ logs ++ [EvSleep (10 * Second)])%list) ∨
     (¬ CycleError net node ∧
      length logs = decode_errors net node ∧
      events s'
        = (events s ++ logs
             ++ interval_events (ParseDuration (Interval node)))%list)).
Proof.
  rewrite requestData_run.
  destruct (fetch_and_map net node s) as [s1 o] eqn:Hrun.
  destruct (fetch_and_map_logs net node s s1 o Hrun)
    as (logs & Hev & Hlogs & Hlen).
  destruct o as [[]|pn].
  - assert (Hno : ¬ CycleError net node).
    { intros Herr.
      destruct (fetch_and_map_panics net node s Herr) as (s2 & pn & Hp).
      congruence. }
    pose proof (fetch_and_map_returned net node s s1 Hrun) as Hret.
    rewrite Hev in Hret. apply app_inv_head in Hret. subst logs.
    eexists _, _. split; [reflexivity|]. split; [exact Hlogs|].
    split; [exact Hlen|]. right. split; [exact Hno|].
    split; [apply length_replicate|]. simpl.
    by rewrite Hev, <- (assoc_L (++)).
  - pose proof (fetch_and_map_panicked net node s s1 pn Hrun) as Herr.
    eexists _, logs. split; [reflexivity|]. split; [exact Hlogs|].
    split; [exact Hlen|]. left. split; [exact Herr|]. simpl.
    by rewrite Hev, <- (assoc_L (++)).
Qed.

(** X4: the loop never spins without sleeping: after [n] iterations,
    whatever the network did in each of them, the goroutine has slept
    exactly [n] more times than before, and no iteration has panicked. *)
Theorem runRequestLoop_sleeps (ParseDuration : string → option Z)
    (nets : nat → Network) (node : Node) (n : nat) (s : State) :
  ∃ s', runRequestLoop ParseDuration nets node n s = (s', Returned tt) ∧
        sleeps (events s') = (sleeps (events s) + n)%nat.
Proof.
  revert nets s. induction n as [|n IH]; intros nets s; simpl.
  - eexists. split; [reflexivity|]. simpl. lia.
  - destruct (requestData_returns ParseDuration (nets O) node s) as [s1 H1].
    rewrite (bind_returned _ _ _ _ _ H1).
    destruct (IH (fun i => nets (S i)) s1) as (s' & Hrun & Hs).
    exists s'. split; [exact Hrun|]. rewrite Hs.
    pose proof (requestData_sleeps ParseDuration (nets O) node s) as Hone.
    rewrite H1 in Hone. simpl in Hone. lia.
Qed.

(** ** What the registry keeps *)

Lemma requestData_registry_union (ParseDuration : string → option Z)
    (net : Network) (node : Node) (s : State) :
  registry (requestData ParseDuration net node s).1
    = registry (requestData ParseDuration net node empty_state).1 ∪ registry s.
Proof. by rewrite (blind_requestData ParseDuration net node s). Qed.

(** X5: nothing ever expires.  Over any number of iterations of a loop
    the registry only gains keys, and a key that no iteration writes
    keeps its value: a pair that was stored once is exposed as long as the
    process lives. *)
Theorem runRequestLoop_keeps_keys (ParseDuration : string → option Z)
    (nets : nat → Network) (node : Node) (n : nat) (s : State) :
  dom (registry s)
    ⊆ dom (registry (runRequestLoop ParseDuration nets node n s).1) ∧
  ∀ key,
    (∀ i, (i < n)%nat →
       registry (requestData ParseDuration (nets i) node empty_state).1 !! key
         = None) →
    registry (runRequestLoop ParseDuration nets node n s).1 !! key
      = registry s !! key.
Proof.
  revert nets s. induction n as [|n IH]; intros nets s; simpl.
  - split; [done|]. by intros key _.
  - destruct (requestData_returns ParseDuration (nets O) node s) as [s1 H1].
    rewrite (bind_returned _ _ _ _ _ H1).
    destruct (IH (fun i => nets (S i)) s1) as [Hdom Hkeep].
    pose proof (requestData_registry_union ParseDuration (nets O) node s) as Hu.
    rewrite H1 in Hu. simpl in Hu. split.
    + etrans; [|exact Hdom]. rewrite Hu, dom_union_L.
      apply union_subseteq_r.
    + intros key Hkey. rewrite Hkeep.
      * rewrite Hu. apply lookup_union_r. apply (Hkey O). lia.
      * intros i Hi. apply (Hkey (S i)). lia.
Qed.

Lemma runRequestLoop_keeps_keys_witness :
  registry (runRequestLoop parse_seconds (fun _ => sample_net_b) sample_node_b
              3 prior_channels_5).1 !! (channelsTotal, "rabbit@a")
    = Some (f64_of_Z 5).
Proof.
  rewrite (proj2 (runRequestLoop_keeps_keys parse_seconds
                    (fun _ => sample_net_b) sample_node_b 3 prior_channels_5)).
  - reflexivity.
  - intros i _. vm_compute. reflexivity.
Defined.

(** X6: polling a broker that has not changed changes nothing: a second
    cycle against the same network leaves the registry the first one
    left, value for value. *)
Theorem requestData_twice_registry (ParseDuration : string → option Z)
    (net : Network) (node : Node) (s : State) :
  registry (requestData ParseDuration net node
              (requestData ParseDuration net node s).1).1
    = registry (requestData ParseDuration net node s).1.
Proof.
  rewrite (requestData_registry_union ParseDuration net node
             (requestData ParseDuration net node s).1).
  rewrite (requestData_registry_union ParseDuration net node s).
  by rewrite (assoc_L (∪)), (idemp_L (∪)).
Qed.

(** X7: cycles of two nodes that write under different keys commute: the
    registry after both is the same whichever ran first, so the order in
    which the goroutines happen to run does not show in the values. *)
Theorem requestData_commute (ParseDuration : string → option Z)
    (net1 net2 : Network) (node1 node2 : Node) (s : State) :
  registry (requestData ParseDuration net1 node1 empty_state).1
    ##ₘ registry (requestData ParseDuration net2 node2 empty_state).1 →
  registry (requestData ParseDuration net2 node2
              (requestData ParseDuration net1 node1 s).1).1
    = registry (requestData ParseDuration net1 node1
                  (requestData ParseDuration net2 node2 s).1).1.
Proof.
  intros Hdisj.
  rewrite (requestData_registry_union ParseDuration net2 node2
             (requestData ParseDuration net1 node1 s).1).
  rewrite (requestData_registry_union ParseDuration net1 node1
             (requestData ParseDuration net2 node2 s).1).
  rewrite (requestData_registry_union ParseDuration net1 node1 s).
  rewrite (requestData_registry_union ParseDuration net2 node2 s).
  rewrite !(assoc_L (∪)). f_equal. by apply map_union_comm.
Qed.

Lemma requestData_commute_witness :
  registry (requestData parse_seconds sample_net_b sample_node_b
              (requestData parse_seconds sample_net sample_node
                 prior_channels_5).1).1
    = registry (requestData parse_seconds sample_net sample_node
                  (requestData parse_seconds sample_net_b sample_node_b
                     prior_channels_5).1).1.
Proof.
  apply (requestData_commute parse_seconds sample_net sample_net_b
           sample_node sample_node_b prior_channels_5).
  by apply (bool_decide_unpack _); vm_compute.
Defined.

(** ** What the passes look at *)

(** X8: of a well-shaped overview the pass uses the node name and the
    numbers under the fifteen target keys, nothing else: two overviews
    that agree on those are mapped alike.  In particular any further
    entry of [queue_totals] or [message_stats], a number or not, is
    ignored. *)
Theorem getOverview_targets_only (net net' : Network) (h u p : string)
    (response response' : jobject) (s : State) :
  net (h ++ "/api/overview") u p = Body (Some (JObj response)) →
  net' (h ++ "/api/overview") u p = Body (Some (JObj response')) →
  well_shaped response →
  well_shaped response' →
  nodename_of response = nodename_of response' →
  (∀ m g k grp grp', (m, g, k) ∈ overview_fields →
     group_of response g = Some grp → group_of response' g = Some grp' →
     field grp k = field grp' k) →
  getOverview net h u p s = getOverview net' h u p s.
Proof.
  intros Hnet Hnet' (g1 & g2 & g3 & H1 & H2 & H3 & Hn)
         (g1' & g2' & g3' & H1' & H2' & H3' & Hn') Hnode Hfields.
  rewrite (getOverview_body net h u p _ s Hnet).
  rewrite (getOverview_body net' h u p _ s Hnet'). simpl.
  rewrite (overview_points_Some response g1 g2 g3) by done.
  rewrite (overview_points_Some response' g1' g2' g3') by done.
  do 3 f_equal. rewrite Hnode.
  apply Forall_fmap_ext_1, Forall_forall. intros [[m g] k] Hin.
  f_equal. apply (Hfields m g k); [done| |]; by destruct g.
Qed.

(** The sample overview with a string and a number more among the queue
    totals. *)
Lemma getOverview_targets_only_witness :
  getOverview sample_net "http://a:15672" "guest" "guest" empty_state
  = getOverview
      (serve "http://a:15672"
         (Body (Some (JObj
            (<["queue_totals" :=
                 JObj (<["policy" := JStr "ha"]>
                         (<["messages_details" := num 0]> sample_queue_totals))]>
               sample_overview))))
         TransportError)
      "http://a:15672" "guest" "guest" empty_state.
Proof.
  apply (getOverview_targets_only _ _ "http://a:15672" "guest" "guest"
           sample_overview
           (<["queue_totals" :=
                JObj (<["policy" := JStr "ha"]>
                        (<["messages_details" := num 0]> sample_queue_totals))]>
              sample_overview)).
  - reflexivity.
  - reflexivity.
  - apply sample_overview_well_shaped.
  - eexists _, _, _. repeat split; try reflexivity.
    by apply (bool_decide_unpack _); vm_compute.
  - reflexivity.
  - intros m g k grp grp' Hin.
    repeat (apply elem_of_cons in Hin as [[= -> -> ->]|Hin];
            [intros [= <-] [= <-]; vm_compute; reflexivity|]).
    by apply elem_of_nil in Hin.
Defined.

Lemma has_messages_ext (l l' : list jobject) :
  Forall2 (fun v v' : jobject => v !! "messages" = v' !! "messages") l l' →
  Forall has_messages l ↔ Forall has_messages l'.
Proof.
  induction 1 as [|v v' l l' Hv _ IH]; [done|].
  rewrite !Forall_cons, IH. unfold has_messages. by rewrite Hv.
Qed.

Lemma total_messages_ext (l l' : list jobject) (total : float64) :
  Forall2 (fun v v' : jobject => v !! "messages" = v' !! "messages") l l' →
  foldl (fun total v => f64_add total (field v "messages")) total l
    = foldl (fun total v => f64_add total (field v "messages")) total l'.
Proof.
  intros Hall. revert total.
  induction Hall as [|v v' l l' Hv _ IH]; intros total; [done|].
  simpl.
  replace (field v "messages") with (field v' "messages")
    by (unfold field; by rewrite Hv).
  apply IH.
Qed.

(** X9: of the queues array the pass uses the [node] of the first
    element and the [messages] of every element, nothing else.  The
    [node] of a later element is never read: queues of other nodes of a
    cluster are summed under the first queue's node. *)
Theorem getNumberOfMessages_first_node_only (net net' : Network)
    (h u p : string) (first first' : jobject) (rest rest' : list jobject)
    (s : State) :
  net (h ++ "/api/queues") u p = Body (Some (JArr (JObj <$> first :: rest))) →
  net' (h ++ "/api/queues") u p
    = Body (Some (JArr (JObj <$> first' :: rest'))) →
  as_string (first !! "node") = as_string (first' !! "node") →
  Forall2 (fun v v' : jobject => v !! "messages" = v' !! "messages")
          (first :: rest) (first' :: rest') →
  getNumberOfMessages net h u p s = getNumberOfMessages net' h u p s.
Proof.
  intros Hnet Hnet' Hnode Hall.
  rewrite (getNumberOfMessages_body net h u p _ s Hnet).
  rewrite (getNumberOfMessages_body net' h u p _ s Hnet').
  rewrite !Decode_objs_objects. simpl.
  unfold queues_point. rewrite Hnode.
  destruct (as_string (first' !! "node")) as [nodename|]; [|done].
  unfold total_messages_of. rewrite (total_messages_ext _ _ _ Hall).
  destruct (decide (Forall has_messages (first :: rest))) as [Hm|Hm].
  - by rewrite decide_True by (by apply (has_messages_ext _ _ Hall)).
  - by rewrite decide_False by (by rewrite <- (has_messages_ext _ _ Hall)).
Qed.

(** The sample queues with the second queue on another node: still
    [messages_total{node="rabbit@a"} = 10]. *)
Lemma getNumberOfMessages_first_node_only_witness :
  getNumberOfMessages sample_net "http://a:15672" "guest" "guest" empty_state
  = getNumberOfMessages
      (serve "http://a:15672" TransportError
         (Body (Some (JArr (JObj <$>
            [ list_to_map [ ("node", JStr "rabbit@a"); ("messages", num 3) ];
              list_to_map [ ("node", JStr "rabbit@c"); ("messages", num 7) ] ])))))
      "http://a:15672" "guest" "guest" empty_state.
Proof.
  apply (getNumberOfMessages_first_node_only _ _ "http://a:15672" "guest"
           "guest"
           (list_to_map [ ("node", JStr "rabbit@a"); ("messages", num 3) ])
           (list_to_map [ ("node", JStr "rabbit@a"); ("messages", num 3) ])
           [ list_to_map [ ("node", JStr "rabbit@a"); ("messages", num 7) ] ]
           [ list_to_map [ ("node", JStr "rabbit@c"); ("messages", num 7) ] ]).
  - reflexivity.
  - reflexivity.
  - reflexivity.
  - repeat constructor.
Defined.

(** X10: a cycle asks the network for two things only, the overview and
    the queues of its node with the node's credentials, and for the
    queues only once the overview pass has returned: two networks that
    agree on the overview give the same cycle when they agree on the
    queues too, or when the overview pass panics. *)
Theorem requestData_two_requests (ParseDuration : string → option Z)
    (net net' : Network) (node : Node) (s : State) :
  net (overview_url node) (Uname node) (Password node)
    = net' (overview_url node) (Uname node) (Password node) →
  net (queues_url node) (Uname node) (Password node)
    = net' (queues_url node) (Uname node) (Password node) ∨
  (∃ s' pn, getOverview net (Url node) (Uname node) (Password node) s
            = (s', Panicked pn)) →
  requestData ParseDuration net node s = requestData ParseDuration net' node s.
Proof.
  intros Ho Hq.
  assert (Hov : ∀ s0, getOverview net (Url node) (Uname node) (Password node) s0
                    = getOverview net' (Url node) (Uname node) (Password node) s0).
  { intros s0. unfold getOverview, sendApiRequest.
    fold (overview_url node). by rewrite Ho. }
  rewrite !requestData_run. unfold fetch_and_map, bind. rewrite <- Hov.
  destruct Hq as [Hq|(s' & pn & Hp)].
  - destruct (getOverview net (Url node) (Uname node) (Password node) s)
      as [s1 [[]|pn]]; [|done].
    unfold getNumberOfMessages, sendApiRequest.
    fold (queues_url node). by rewrite Hq.
  - by rewrite Hp.
Qed.

Lemma requestData_two_requests_witness :
  requestData parse_seconds down_net sample_node empty_state
  = requestData parse_seconds
      (serve "http://a:15672" TransportError
             (Body (Some (JArr (JObj <$> sample_queues)))))
      sample_node empty_state.
Proof.
  apply (requestData_two_requests parse_seconds down_net _ sample_node
           empty_state).
  - reflexivity.
  - right. by eexists _, _.
Defined.

(** X11: a failure need not be logged.  When the overview arrives and
    decodes without an error but has the wrong shape, the JSON [null], an
    object without one of the groups, or a value that is not a number in
    [object_totals], the cycle adds nothing to the history but its ten
    second sleep: nothing tells the operator why the node's metrics
    stand still. *)
Theorem requestData_silent_failure (ParseDuration : string → option Z)
    (net : Network) (node : Node) (d : Decoder) (s : State) :
  net (overview_url node) (Uname node) (Password node) = Body d →
  (Decode_obj d).2 = false →
  shape_error (Decode_obj d).1 →
  requestData ParseDuration net node s
    = (mkState (registry s) (events s ++ [EvSleep (10 * Second)]),
       Returned tt).
Proof.
  intros Hnet Hdec Herr.
  rewrite requestData_run. unfold fetch_and_map.
  rewrite (bind_panicked _ _ _ _ _
             (getOverview_shape_error net _ _ _ d s Hnet Herr)).
  rewrite Hdec. reflexivity.
Qed.

Lemma requestData_silent_failure_witness :
  requestData parse_seconds
      (serve "http://a:15672" (Body (Some JNull)) TransportError)
      sample_node prior_channels_5
    = (mkState (registry prior_channels_5) [EvSleep (10 * Second)],
       Returned tt).
Proof.
  apply (requestData_silent_failure parse_seconds _ sample_node (Some JNull)
           prior_channels_5).
  - reflexivity.
  - reflexivity.
  - left. by exists object_totals.
Defined.

(** ** What a scrape sees *)

Lemma overview_fields_registered (m : Metric) (g : Group) (k : string) :
  (m, g, k) ∈ overview_fields →
  m ≠ messagesUnacknowledgedCounter → m ∈ registered.
Proof.
  intros Hin Hne.
  repeat (apply elem_of_cons in Hin as [[= -> -> ->]|Hin];
          [first [ done | by apply (bool_decide_unpack _); vm_compute ]|]).
  by apply elem_of_nil in Hin.
Qed.

Lemma unacknowledged_not_registered : messagesUnacknowledgedCounter ∉ registered.
Proof. by apply (bool_decide_unpack _); vm_compute. Qed.

(** X12: [init] registers fifteen of the sixteen vectors and leaves out
    [messagesUnacknowledgedCounter].  So after every overview pass that
    returns, a scrape sees fourteen of the fifteen values just stored,
    each under the overview's node label; the count of unacknowledged
    messages is stored like the others and is never seen, for no registry
    and no label. *)
Theorem unacknowledged_never_gathered (net : Network) (h u p : string)
    (response : jobject) (s : State) :
  net (h ++ "/api/overview") u p = Body (Some (JObj response)) →
  well_shaped response →
  ∃ s', getOverview net h u p s = (s', Returned tt) ∧
    (∀ m g k grp, (m, g, k) ∈ overview_fields →
       group_of response g = Some grp →
       registry s' !! (m, nodename_of response) = Some (field grp k) ∧
       gather (registry s') !! (m, nodename_of response)
         = if decide (m = messagesUnacknowledgedCounter) then None
           else Some (field grp k)) ∧
    ∀ (r : Registry) (l : string),
      gather r !! (messagesUnacknowledgedCounter, l) = None.
Proof.
  intros Hnet Hws.
  destruct (getOverview_well_shaped net h u p response s Hnet Hws)
    as (pts & Hrun & Hlen & Hnd & Hkeys & Hin).
  eexists. split; [exact Hrun|]. simpl. split.
  - intros m g k grp Hf Hg.
    assert (Hv : observe_all pts (registry s) !! (m, nodename_of response)
                 = Some (field grp k)).
    { apply observe_all_lookup; [done|]. by apply (Hin m g k). }
    split; [done|]. unfold gather.
    destruct (decide (m = messagesUnacknowledgedCounter)) as [->|Hne].
    + apply map_lookup_filter_None_2. right. intros v _.
      apply unacknowledged_not_registered.
    + apply map_lookup_filter_Some_2; [done|]. simpl.
      by apply (overview_fields_registered m g k).
  - intros r l. unfold gather. apply map_lookup_filter_None_2. right.
    intros v _. apply unacknowledged_not_registered.
Qed.

Lemma unacknowledged_never_gathered_witness :
  ∃ s', getOverview sample_net "http://a:15672" "guest" "guest" empty_state
          = (s', Returned tt) ∧
        registry s' !! (messagesUnacknowledgedCounter, "rabbit@a")
          = Some (f64_of_Z 8) ∧
        gather (registry s') !! (messagesUnacknowledgedCounter, "rabbit@a")
          = None.
Proof.
  destruct (unacknowledged_never_gathered sample_net "http://a:15672" "guest"
              "guest" sample_overview empty_state) as (s' & Hrun & Hval & Hno).
  - reflexivity.
  - apply sample_overview_well_shaped.
  - exists s'. split; [exact Hrun|]. split; [|apply Hno].
    apply (Hval messagesUnacknowledgedCounter queue_totals
             "messages_unacknowledged" sample_queue_totals).
    + do 7 apply list_elem_of_further. apply list_elem_of_here.
    + reflexivity.
Defined.

(** ** The supervisor *)

(** X13: [updateNodesStats] starts one loop per node, in the order of the
    configuration, and changes nothing of a node but an empty interval:
    name, URL and credentials are kept, a node with an interval of its
    own is passed on as it is, and when the global interval is not empty
    no loop starts with an empty one. *)
Theorem updateNodesStats_keeps (config : Config) (nodes : list Node) :
  Nodes config = Some nodes →
  ∃ launched, updateNodesStats config = Returned launched ∧
    length launched = length nodes ∧
    (∀ i node, nodes !! i = Some node →
       ∃ node', launched !! i = Some node' ∧
         Name node' = Name node ∧ Url node' = Url node ∧
         Uname node' = Uname node ∧ Password node' = Password node ∧
         (Interval node ≠ "" → node' = node)) ∧
    (cfg_Interval config ≠ "" →
     Forall (fun node' => Interval node' ≠ "") launched).
Proof.
  intros Hnodes. unfold updateNodesStats. rewrite Hnodes.
  eexists. split; [reflexivity|]. split; [apply length_fmap|]. split.
  - intros i node Hi. exists (resolve_interval config node).
    split; [by rewrite list_lookup_fmap, Hi|].
    unfold resolve_interval.
    destruct (String.length (Interval node) =? 0)%nat eqn:Hlen; simpl.
    + repeat split; try done. intros Hne.
      by apply length_zero_empty in Hlen.
    + by repeat split.
  - intros Hglobal. apply Forall_fmap, Forall_forall. intros node _. simpl.
    rewrite resolve_interval_Interval.
    by destruct (decide (Interval node = "")).
Qed.

Lemma updateNodesStats_keeps_witness :
  ∃ launched, updateNodesStats sample_config = Returned launched ∧
    length launched = 2%nat ∧
    Forall (fun node' => Interval node' ≠ "") launched.
Proof.
  destruct (updateNodesStats_keeps sample_config
              [ sample_node; mkNode "b" "http://a:15672" "guest" "guest" "" ])
    as (launched & Hrun & Hlen & _ & Hint).
  - reflexivity.
  - exists launched. split; [exact Hrun|]. split; [exact Hlen|].
    apply Hint. discriminate.
Defined.

(** ** Start-up *)

Lemma loadConfig_run (Unmarshal : string → Config → Config * bool)
    (fs : Startup.FileSystem) (path : string) (s : Startup.State) :
  Startup.loadConfig Unmarshal fs path s =
    match fs path with
    | Startup.ReadError =>
        (Startup.mkState (Startup.config s)
                         (Startup.events s ++ Startup.cooldown),
         Returned false)
    | Startup.Content file =>
        if (Unmarshal file (Startup.config s)).2
        then (Startup.mkState (Unmarshal file (Startup.config s)).1
                              (Startup.events s ++ Startup.cooldown),
              Returned false)
        else (Startup.mkState (Unmarshal file (Startup.config s)).1
                              (Startup.events s),
              Returned true)
    end.
Proof.
  unfold Startup.loadConfig, Startup.defer_recover, Startup.bind,
    Startup.json_Unmarshal.
  destruct (fs path) as [|file]; simpl.
  - by rewrite <- (assoc_L (++)).
  - destruct (Unmarshal file (Startup.config s)) as [c []]; simpl.
    + by rewrite <- (assoc_L (++)).
    + reflexivity.
Qed.

Lemma loadConfig_fails (Unmarshal : string → Config → Config * bool)
    (fs : Startup.FileSystem) (path : string) (s : Startup.State) :
  Startup.load_fails Unmarshal (fs path) →
  ∃ c, Startup.loadConfig Unmarshal fs path s
       = (Startup.mkState c (Startup.events s ++ Startup.cooldown),
          Returned false).
Proof.
  intros Hf. rewrite loadConfig_run.
  destruct (fs path) as [|file]; simpl in *; [by eexists|].
  rewrite Hf. by eexists.
Qed.

(** X14: the configuration loop is a gate with a fixed cooldown.  While
    the file cannot be read or does not parse the loop stays inside:
    after [n] failed attempts it has logged [n] errors and slept [n]
    times ten seconds, no longer after the tenth failure than after the
    first, and it has neither returned nor panicked. *)
Theorem runLoadConfigLoop_retries (Unmarshal : string → Config → Config * bool)
    (fs : nat → Startup.FileSystem) (path : string) (n : nat)
    (s : Startup.State) :
  (∀ i, (i < n)%nat → Startup.load_fails Unmarshal (fs i path)) →
  ∃ c, Startup.runLoadConfigLoop Unmarshal fs path n s
       = (Startup.mkState c
            (Startup.events s ++ concat (replicate n Startup.cooldown)),
          Returned false).
Proof.
  revert fs s. induction n as [|n IH]; intros fs s Hf; simpl.
  - exists (Startup.config s). unfold Startup.ret.
    rewrite app_nil_r. by destruct s.
  - destruct (loadConfig_fails Unmarshal (fs O) path s) as [c1 H1];
      [apply Hf; lia|].
    unfold Startup.bind at 1. rewrite H1.
    destruct (IH (fun i => fs (S i)) (Startup.mkState c1
                (Startup.events s ++ Startup.cooldown))) as [c Hrun].
    { intros i Hi. apply Hf. lia. }
    exists c. rewrite Hrun. simpl. by rewrite <- (assoc_L (++)).
Qed.

Lemma runLoadConfigLoop_retries_witness :
  ∃ c, Startup.runLoadConfigLoop sample_Unmarshal sample_files "config.json" 2
         (Startup.mkState zero_Config [])
       = (Startup.mkState c
            ([] ++ concat (replicate 2 Startup.cooldown)),
          Returned false).
Proof.
  apply (runLoadConfigLoop_retries sample_Unmarshal sample_files "config.json"
           2 (Startup.mkState zero_Config [])).
  intros [|[|i]] Hi; [exact I|by intros c|lia].
Defined.

(** X15: the loop is left at the first attempt that reads the file and
    parses it: when [k] attempts fail and the next one succeeds, the loop
    has returned by then, after [k] errors and [k] sleeps of ten seconds,
    and [main] goes on with the configuration that this last
    [json.Unmarshal] left. *)
Theorem runLoadConfigLoop_gate (Unmarshal : string → Config → Config * bool)
    (fs : nat → Startup.FileSystem) (path file : string) (k n : nat)
    (s : Startup.State) :
  (∀ i, (i < k)%nat → Startup.load_fails Unmarshal (fs i path)) →
  fs k path = Startup.Content file →
  (∀ c, (Unmarshal file c).2 = false) →
  (k < n)%nat →
  ∃ c, Startup.runLoadConfigLoop Unmarshal fs path n s
       = (Startup.mkState (Unmarshal file c).1
            (Startup.events s ++ concat (replicate k Startup.cooldown)),
          Returned true).
Proof.
  revert fs n s. induction k as [|k IH]; intros fs n s Hf Hk Hok Hn.
  - destruct n as [|n]; [lia|]. simpl.
    exists (Startup.config s). unfold Startup.bind.
    rewrite loadConfig_run, Hk, Hok. by rewrite app_nil_r.
  - destruct n as [|n]; [lia|]. simpl.
    destruct (loadConfig_fails Unmarshal (fs O) path s) as [c1 H1];
      [apply Hf; lia|].
    unfold Startup.bind at 1. rewrite H1.
    destruct (IH (fun i => fs (S i)) n (Startup.mkState c1
                (Startup.events s ++ Startup.cooldown))) as [c Hrun];
      [intros i Hi; apply Hf; lia|done|done|lia|].
    exists c. rewrite Hrun. simpl. by rewrite <- (assoc_L (++)).
Qed.

Lemma runLoadConfigLoop_gate_witness :
  ∃ c, Startup.runLoadConfigLoop sample_Unmarshal sample_files "config.json" 5
         (Startup.mkState zero_Config [])
       = (Startup.mkState (sample_Unmarshal "ok" c).1
            ([] ++ concat (replicate 2 Startup.cooldown)),
          Returned true).
Proof.
  apply (runLoadConfigLoop_gate sample_Unmarshal sample_files "config.json"
           "ok" 2 5 (Startup.mkState zero_Config [])).
  - intros [|[|i]] Hi; [exact I|by intros c|lia].
  - reflexivity.
  - by intros c.
  - lia.
Defined.

(** X16: [main] does not recover.  Once the configuration loop has been
    left, a configuration without [nodes] makes [updateNodesStats]
    dereference nil and the panic ends the process; a configuration with
    nodes starts one goroutine per node, in order, each with its interval
    resolved, over an empty registry. *)
Theorem main_start_nodes (Unmarshal : string → Config → Config * bool)
    (fs : nat → Startup.FileSystem) (args : list string) (n : nat)
    (s s' : Startup.State) :
  Startup.runLoadConfigLoop Unmarshal fs (Startup.configPath args) n s
    = (s', Returned true) →
  Startup.main_start Unmarshal fs args n s =
    match Nodes (Startup.config s') with
    | None => (s', Panicked PanicNilDereference)
    | Some nodes =>
        (s', Returned (Some (mkSystem ∅
               ((fun node => mkGoroutine (resolve_interval (Startup.config s') node) [])
                <$> nodes))))
    end.
Proof.
  intros Hrun. unfold Startup.main_start, Startup.bind. rewrite Hrun.
  unfold started, updateNodesStats.
  destruct (Nodes (Startup.config s')) as [nodes|]; [|reflexivity].
  by rewrite <- list_fmap_compose.
Qed.

(** A configuration file that parses and sets nothing. *)
Lemma main_start_nodes_witness :
  Startup.main_start sample_Unmarshal (fun _ _ => Startup.Content "empty")
      [ "rabbitmq_exporter" ] 1 (Startup.mkState zero_Config [])
    = (Startup.mkState zero_Config [], Panicked PanicNilDereference).
Proof.
  apply (main_start_nodes sample_Unmarshal (fun _ _ => Startup.Content "empty")
           [ "rabbitmq_exporter" ] 1 (Startup.mkState zero_Config [])
           (Startup.mkState zero_Config [])).
  reflexivity.
Defined.
